(** * Pipeline Doctor: a shallow embedding of [lambda/doctor/index.js]

    The Lambda handler reacts to CodeBuild / CodePipeline failure events,
    tracks retries per incident in a DynamoDB table, applies a remediation
    playbook and escalates through SNS once the retry budget is spent.

    The handler is modelled as a computation in a state-and-exception monad
    over a [World] (the DynamoDB table, the clock and the trace of service
    requests), parameterised by the process environment and by the behaviour
    of the AWS services during one invocation. *)

From Stdlib Require Import ZArith Lia Ascii String Decimal DecimalString DecimalZ.
From stdpp Require Import base option list strings gmap.

Local Open Scope Z_scope.

(** ** JavaScript values used by the handler *)

(** Strings are byte strings (the UTF-8 encoding of the JS string). *)

Module Js.

(** [s.includes(needle)] *)
Fixpoint includes (s needle : string) : bool :=
  if String.prefix needle s then true
  else match s with
       | EmptyString => false
       | String _ s' => includes s' needle
       end.

(** One character of [toLowerCase]: the ASCII capitals are folded.  No other
    code point lower-cases to one of the letters of an ASCII needle without
    [i] or [k], so for the needle of the handler this agrees with the Unicode
    mapping. *)
Definition lower (c : ascii) : ascii :=
  let n := nat_of_ascii c in
  if (Nat.leb 65 n && Nat.leb n 90)%bool then ascii_of_nat (n + 32) else c.

(** [s.toLowerCase()] *)
Fixpoint toLowerCase (s : string) : string :=
  match s with
  | EmptyString => EmptyString
  | String c s' => String (lower c) (toLowerCase s')
  end.

(** [a || b] on a possibly undefined string: the empty string is falsy. *)
Definition or_else (a : option string) (b : string) : string :=
  match a with
  | Some (String c s) => String c s
  | _ => b
  end.

(** Interpolation [`${v}`] of a possibly undefined string. *)
Definition interp (v : option string) : string :=
  match v with
  | Some s => s
  | None => "undefined"
  end.

(** JS numbers as far as the handler needs them: integers and [NaN].
    (Loss of precision above 2^53 is outside the model.) *)
Inductive number : Type :=
| NaN
| Int (z : Z).

(** [a >= b] *)
Definition ge (a b : number) : bool :=
  match a, b with
  | Int x, Int y => y <=? x
  | _, _ => false
  end.

(** [a + 1] *)
Definition succ (a : number) : number :=
  match a with
  | Int x => Int (x + 1)
  | NaN => NaN
  end.

(** [String(n)], [n.toString()] and [`${n}`] *)
Definition toString (n : number) : string :=
  match n with
  | NaN => "NaN"
  | Int z => NilZero.string_of_int (Z.to_int z)
  end.

(** White space and line terminators, as [parseInt] skips them, in their
    UTF-8 encoding.  One byte: TAB, LF, VT, FF, CR and the space. *)
Definition isWhite (c : ascii) : bool :=
  let n := nat_of_ascii c in
  (Nat.eqb n 32 || (Nat.leb 9 n && Nat.leb n 13))%bool.

(** Two bytes: U+00A0, the no-break space. *)
Definition isWhite2 (a b : ascii) : bool :=
  (Nat.eqb (nat_of_ascii a) 194 && Nat.eqb (nat_of_ascii b) 160)%bool.

(** Three bytes: U+1680, U+2000 to U+200A, U+2028, U+2029, U+202F, U+205F,
    U+3000 and U+FEFF. *)
Definition isWhite3 (a b c : ascii) : bool :=
  let '(x, y, z) := (nat_of_ascii a, nat_of_ascii b, nat_of_ascii c) in
  (Nat.eqb x 225 && Nat.eqb y 154 && Nat.eqb z 128
   || Nat.eqb x 226 && Nat.eqb y 128
      && (Nat.leb 128 z && Nat.leb z 138 || Nat.eqb z 168 || Nat.eqb z 169
          || Nat.eqb z 175)
   || Nat.eqb x 226 && Nat.eqb y 129 && Nat.eqb z 159
   || Nat.eqb x 227 && Nat.eqb y 128 && Nat.eqb z 128
   || Nat.eqb x 239 && Nat.eqb y 187 && Nat.eqb z 191)%bool.

(** The first byte of a white space code point of two or of three bytes. *)
Definition leadsWhite2 (a : ascii) : bool := Nat.eqb (nat_of_ascii a) 194.

Definition leadsWhite3 (a : ascii) : bool :=
  let x := nat_of_ascii a in
  (Nat.eqb x 225 || Nat.eqb x 226 || Nat.eqb x 227 || Nat.eqb x 239)%bool.

Definition isDigit (c : ascii) : bool :=
  let n := nat_of_ascii c in (Nat.leb 48 n && Nat.leb n 57)%bool.

Fixpoint trimStart (s : string) : string :=
  match s with
  | String a s1 =>
      if isWhite a then trimStart s1
      else if leadsWhite2 a then
        match s1 with
        | String b s2 => if isWhite2 a b then trimStart s2 else s
        | _ => s
        end
      else if leadsWhite3 a then
        match s1 with
        | String b (String c s3) => if isWhite3 a b c then trimStart s3 else s
        | _ => s
        end
      else s
  | EmptyString => EmptyString
  end.

Fixpoint takeDigits (s : string) : string :=
  match s with
  | String c s' => if isDigit c then String c (takeDigits s') else EmptyString
  | EmptyString => EmptyString
  end.

(** [parseInt(s, 10)]: leading white space, an optional sign, then the
    longest run of decimal digits; [NaN] when there is no digit. *)
Definition parseInt (s : string) : number :=
  let s := trimStart s in
  let '(neg, s) :=
    match s with
    | String "-"%char r => (true, r)
    | String "+"%char r => (false, r)
    | _ => (false, s)
    end in
  match NilZero.uint_of_string (takeDigits s) with
  | Some d => Int (if neg : bool then - Z.of_uint d else Z.of_uint d)
  | None => NaN
  end.

(** [n] in decimal, left-padded with zeros to [width] characters. *)
Definition padStart (width : nat) (n : Z) : string :=
  let d := toString (Int n) in
  String.concat "" (List.repeat "0" (width - String.length d)) +:+ d.

(** Year, month and day of the civil date [days] days after 1970-01-01. *)
Definition civil (days : Z) : Z * Z * Z :=
  let z := days + 719468 in
  let era := z / 146097 in
  let doe := z - era * 146097 in
  let yoe := (doe - doe / 1460 + doe / 36524 - doe / 146096) / 365 in
  let doy := doe - (365 * yoe + yoe / 4 - yoe / 100) in
  let mp := (5 * doy + 2) / 153 in
  let d := doy - (153 * mp + 2) / 5 + 1 in
  let m := if mp <? 10 then mp + 3 else mp - 9 in
  let y := yoe + era * 400 in
  (if m <=? 2 then y + 1 else y, m, d).

(** [new Date(ms).toISOString()] for an instant within the range of [Date]. *)
Definition toISOString (ms : Z) : string :=
  let '(y, m, d) := civil (ms / 86400000) in
  let t := ms mod 86400000 in
  let year :=
    if (0 <=? y) && (y <=? 9999) then padStart 4 y
    else (if y <? 0 then "-" else "+") +:+ padStart 6 (Z.abs y) in
  year +:+ "-" +:+ padStart 2 m +:+ "-" +:+ padStart 2 d +:+ "T"
    +:+ padStart 2 (t / 3600000) +:+ ":" +:+ padStart 2 (t / 60000 mod 60)
    +:+ ":" +:+ padStart 2 (t / 1000 mod 60) +:+ "." +:+ padStart 3 (t mod 1000)
    +:+ "Z".

End Js.

(** ** The AWS services the handler talks to *)

(** A DynamoDB attribute value, [{S: ...}] or [{N: ...}]. *)
Inductive AttributeValue : Type :=
| AttrS (s : string)
| AttrN (n : string).

(** A build as [batchGetBuilds] describes it.  The handler reads its
    [projectName] and serialises the whole object; [json] is
    [JSON.stringify(build)], the diagnostic blob. *)
Record Build : Type := {
  projectName : option string;
  json : string
}.

Record BatchGetBuildsOutput : Type := {
  builds : option (list Build)
}.

(** The awaited calls of the handler, with their parameters. *)
Inductive Call : Type :=
| BatchGetBuilds (ids : list (option string))
| UpdateProject (name : option string) (timeoutInMinutes : Z)
| StartBuild (project : option string)
    (environmentVariablesOverride : list (string * string))
| RetryStageExecution (pipelineName pipelineExecutionId stageName : option string)
    (retryMode : string)
| GetItem (TableName : option string) (Key : string)
| PutItem (TableName : option string) (Item : gmap string AttributeValue)
| Publish (TopicArn : string) (Message : string)
| SetTimeout (ms : Z).

(** The requests of the remediation playbooks to CodeBuild and
    CodePipeline. *)
Definition is_executor (c : Call) : bool :=
  match c with
  | UpdateProject _ _ | StartBuild _ _ | RetryStageExecution _ _ _ _ => true
  | _ => false
  end.

(** Everything a playbook does: the executor requests and the backoff
    delay. *)
Definition is_remediation (c : Call) : bool :=
  match c with
  | SetTimeout _ => true
  | _ => is_executor c
  end.

(** The reads that precede the decision. *)
Definition is_lookup (c : Call) : bool :=
  match c with
  | BatchGetBuilds _ | GetItem _ _ => true
  | _ => false
  end.

Definition is_publish (c : Call) : bool :=
  match c with
  | Publish _ _ => true
  | _ => false
  end.

Definition is_putItem (c : Call) : bool :=
  match c with
  | PutItem _ _ => true
  | _ => false
  end.

(** How the services answer during one invocation: which requests are
    rejected, and what CodeBuild reports for a list of build ids. *)
Record Services : Type := {
  rejects : Call -> bool;
  describe : list (option string) -> BatchGetBuildsOutput
}.

(** The process environment. *)
Record Env : Type := {
  env_TABLE : option string;
  env_TOPIC_ARN : option string;
  env_MAX_RETRIES : option string
}.

(** What persists between invocations and what an invocation leaves
    behind: the incidents table (keyed by [incidentId]), the clock in
    milliseconds, and the requests issued so far, oldest first.  Only the
    backoff delay moves the clock; the latency of the services is not
    modelled. *)
Record World : Type := {
  table : gmap string (gmap string AttributeValue);
  now : Z;
  trace : list Call
}.

(** ** Promises: state and rejection *)

Inductive Result (A : Type) : Type :=
| Ok (a : A)
| Throw (rejected : Call).
Arguments Ok {A} a.
Arguments Throw {A} rejected.

Definition M (A : Type) : Type := World -> Result A * World.

Definition ret {A : Type} (a : A) : M A := fun w => (Ok a, w).

Definition bind {A B : Type} (m : M A) (k : A -> M B) : M B :=
  fun w =>
    match m w with
    | (Ok a, w') => k a w'
    | (Throw e, w') => (Throw e, w')
    end.

#[export] Instance M_ret : MRet M := @ret.
#[export] Instance M_bind : MBind M := fun A B k m => bind m k.

Definition read {A : Type} (f : World -> A) : M A := fun w => (Ok (f w), w).
Definition write (f : World -> World) : M unit := fun w => (Ok (), f w).
Definition throw {A : Type} (c : Call) : M A := fun w => (Throw c, w).

Definition record (c : Call) (w : World) : World :=
  {| table := table w; now := now w; trace := trace w ++ [c] |}.

Definition store (k : string) (item : gmap string AttributeValue) (w : World) : World :=
  {| table := <[k := item]> (table w); now := now w; trace := trace w |}.

Definition elapse (ms : Z) (w : World) : World :=
  {| table := table w; now := now w + ms; trace := trace w |}.

(** An inbound EventBridge event: [event['detail-type']] and [event.detail],
    the latter an object with string fields. *)
Record Event : Type := {
  detail_type : option string;
  detail : option (gmap string string)
}.

(** The item [saveIncident] writes, at clock [t]. *)
Definition incidentItem (incidentId : string) (retries : Js.number)
    (lastAction status : string) (t : Z) : gmap string AttributeValue :=
  <["incidentId" := AttrS incidentId]>
  (<["retries" := AttrN (Js.toString retries)]>
   (<["lastAction" := AttrS lastAction]>
    (<["status" := AttrS status]>
     (<["lastUpdated" := AttrS (Js.toISOString t)]> ∅)))).

(** ** The handler *)

Section Doctor.

Context (env : Env) (aws : Services).

(** An awaited service request: it is issued, then rejected or fulfilled. *)
Definition request (c : Call) : M unit :=
  write (record c);; if rejects aws c then throw c else mret ().

Definition batchGetBuilds (ids : list (option string)) : M BatchGetBuildsOutput :=
  request (BatchGetBuilds ids);; mret (describe aws ids).

Definition updateProject (name : option string) (timeoutInMinutes : Z) : M unit :=
  request (UpdateProject name timeoutInMinutes).

Definition startBuild (project : option string)
    (environmentVariablesOverride : list (string * string)) : M unit :=
  request (StartBuild project environmentVariablesOverride).

Definition retryStageExecution (pipelineName pipelineExecutionId stageName : option string)
    (retryMode : string) : M unit :=
  request (RetryStageExecution pipelineName pipelineExecutionId stageName retryMode).

(** [getItem] answers with the item stored under the key, if any. *)
Definition getItem (TableName : option string) (Key : string)
    : M (option (gmap string AttributeValue)) :=
  request (GetItem TableName Key);; read (fun w => table w !! Key).

(** [putItem] overwrites the item stored under the item's [incidentId]; an
    item without that key attribute is rejected. *)
Definition putItem (TableName : option string) (Item : gmap string AttributeValue)
    : M unit :=
  request (PutItem TableName Item);;
  match Item !! "incidentId" with
  | Some (AttrS k) => write (store k Item)
  | _ => throw (PutItem TableName Item)
  end.

Definition publish (TopicArn Message : string) : M unit :=
  request (Publish TopicArn Message).

(** [await new Promise(res => setTimeout(res, ms))] *)
Definition setTimeout (ms : Z) : M unit :=
  write (record (SetTimeout ms));; write (elapse ms).

(** [Date.now()] *)
Definition Date_now : M Z := read now.

Definition TABLE : option string := env_TABLE env.
Definition TOPIC_ARN : option string := env_TOPIC_ARN env.
Definition MAX_RETRIES : Js.number :=
  Js.parseInt (Js.or_else (env_MAX_RETRIES env) "2").

Definition getRetries (incidentId : string) : M Js.number :=
  out ← getItem TABLE incidentId;
  let n :=
    match out with
    | Some item =>
        match item !! "retries" with
        | Some (AttrN n) => Some n
        | _ => None
        end
    | None => None
    end in
  mret match n with
       | Some (String c s) => Js.parseInt (String c s)
       | _ => Js.Int 0
       end.

Definition saveIncident (incidentId : string) (retries : Js.number)
    (lastAction status : string) : M unit :=
  t ← Date_now;
  putItem TABLE (incidentItem incidentId retries lastAction status t).

Definition notify (message : string) : M unit :=
  match TOPIC_ARN with
  | Some (String c s) => publish (String c s) message
  | _ => mret ()
  end.

(** [JSON.stringify(build)]; [undefined] for an undefined build. *)
Definition JSON_stringify (build : option Build) : option string :=
  json <$> build.

(** Lines 50-52: the classification of a build failure from the serialised
    build. *)
Definition classify (raw : option string) : string :=
  let action := "RETRY" in
  let action :=
    if Js.includes (Js.or_else raw "") "TIMED_OUT"
    then "BUMP_TIMEOUT_AND_RETRY" else action in
  let action :=
    if Js.includes (Js.toLowerCase (Js.or_else raw "")) "rate exceeded"
    then "BACKOFF_AND_RETRY" else action in
  action.

(** Line 39 and line 87: the incident identifiers. *)
Definition buildIncidentId (buildId : option string) : string :=
  "codebuild:" +:+ Js.interp buildId.

Definition stageIncidentId (execId stageName : option string) : string :=
  "codepipeline:" +:+ Js.interp execId +:+ ":" +:+ Js.interp stageName.

(** Lines 43 and 91: the escalation messages. *)
Definition buildMessage (buildId projectName : option string) (retries : Js.number)
    : string :=
  "❌ Build " +:+ Js.interp buildId +:+ " (" +:+ Js.interp projectName
    +:+ ") failed after " +:+ Js.toString retries +:+ " retries".

Definition stageMessage (pipelineName stageName : option string)
    (retries : Js.number) : string :=
  "❌ Pipeline " +:+ Js.interp pipelineName +:+ "/" +:+ Js.interp stageName
    +:+ " failed after " +:+ Js.toString retries +:+ " retries".

(** Lines 36-76: a CodeBuild build that failed or timed out. *)
Definition onBuildFailure (buildId : option string) : M unit :=
  info ← batchGetBuilds [buildId];
  let build := head (default [] (builds info)) in
  let projectName := build ≫= projectName in
  let incidentId := buildIncidentId buildId in
  retries ← getRetries incidentId;
  if Js.ge retries MAX_RETRIES then
    notify (buildMessage buildId projectName retries);;
    saveIncident incidentId retries "GAVE_UP" "UNHEALED"
  else
    let raw := JSON_stringify build in
    let action := classify raw in
    (if String.eqb action "BUMP_TIMEOUT_AND_RETRY"
     then updateProject projectName 25 else mret ());;
    (if String.eqb action "BACKOFF_AND_RETRY"
     then setTimeout 30000 else mret ());;
    t ← Date_now;
    startBuild projectName [("CACHE_BUSTER", Js.toString (Js.Int t))];;
    saveIncident incidentId (Js.succ retries) action "RETRYING".

(** Lines 84-103: a CodePipeline action in state FAILED. *)
Definition onStageFailure (pipelineName stageName execId : option string) : M unit :=
  let incidentId := stageIncidentId execId stageName in
  retries ← getRetries incidentId;
  if Js.ge retries MAX_RETRIES then
    notify (stageMessage pipelineName stageName retries);;
    saveIncident incidentId retries "GAVE_UP" "UNHEALED"
  else
    retryStageExecution pipelineName execId stageName "FAILED_ACTIONS";;
    saveIncident incidentId (Js.succ retries) "RETRY_STAGE" "RETRYING".

(** [exports.handler].  The build branch returns from the handler, so the
    pipeline branch is reached only when the build branch is not taken. *)
Definition handler (event : Event) : M unit :=
  let type := Js.or_else (detail_type event) "" in
  let detail := default ∅ (detail event) in
  let status := detail !! "build-status" in
  if Js.includes type "CodeBuild Build State Change"
     && (bool_decide (status = Some "FAILED")
         || bool_decide (status = Some "TIMED_OUT"))
  then onBuildFailure (detail !! "build-id")
  else if Js.includes type "CodePipeline Action Execution State Change"
  then
    if bool_decide (detail !! "state" = Some "FAILED")
    then onStageFailure (detail !! "pipeline") (detail !! "stage")
           (detail !! "execution-id")
    else mret ()
  else mret ().

End Doctor.

(** Sequential processing: one invocation after the other on the same
    world, each with the services as they behave at that time; a rejected
    invocation leaves the world it reached. *)
Definition deliver (env : Env) (w : World) (d : Services * Event) : World :=
  snd (handler env (fst d) (snd d) w).

Definition process (env : Env) (ds : list (Services * Event)) (w : World) : World :=
  fold_left (deliver env) ds w.

(** The retry count [getRetries] reads for an incident in a world. *)
Definition retryCount (w : World) (incidentId : string) : Js.number :=
  match table w !! incidentId with
  | Some item =>
      match item !! "retries" with
      | Some (AttrN (String c s)) => Js.parseInt (String c s)
      | _ => Js.Int 0
      end
  | None => Js.Int 0
  end.

(** ** Vocabulary of the specification *)

(** [needle] occurs in [s]. *)
Definition Contains (s needle : string) : Prop :=
  ∃ pre post, s = pre +:+ needle +:+ post.

(** Some spelling of the lower-case [needle], in any mix of cases, occurs
    in [s]. *)
Definition ContainsAnyCase (s needle : string) : Prop :=
  ∃ pre mid post, s = pre +:+ mid +:+ post ∧ Js.toLowerCase mid = needle.

(** The failures the handler recognises, with the fields it reads. *)
Inductive Failure : Type :=
| BuildFailure (buildId : option string)
| StageFailure (pipelineName stageName execId : option string).

(** The guards of lines 32-35 and 81-83. *)
Definition recognise (event : Event) : option Failure :=
  let type := Js.or_else (detail_type event) "" in
  let detail := default ∅ (detail event) in
  let status := detail !! "build-status" in
  if Js.includes type "CodeBuild Build State Change"
     && (bool_decide (status = Some "FAILED")
         || bool_decide (status = Some "TIMED_OUT"))
  then Some (BuildFailure (detail !! "build-id"))
  else if Js.includes type "CodePipeline Action Execution State Change"
          && bool_decide (detail !! "state" = Some "FAILED")
  then Some (StageFailure (detail !! "pipeline") (detail !! "stage")
               (detail !! "execution-id"))
  else None.

(** The incident identity the handler derives for a failure. *)
Definition identity (f : Failure) : string :=
  match f with
  | BuildFailure buildId => buildIncidentId buildId
  | StageFailure _ stageName execId => stageIncidentId execId stageName
  end.

(** The branch of the handler that a failure selects. *)
Definition onFailure (env : Env) (aws : Services) (f : Failure) : M unit :=
  match f with
  | BuildFailure buildId => onBuildFailure env aws buildId
  | StageFailure pipelineName stageName execId =>
      onStageFailure env aws pipelineName stageName execId
  end.

(** Lines 43-44 and 91-92: notify, then record the terminal state. *)
Definition escalate (env : Env) (aws : Services) (incidentId : string)
    (retries : Js.number) (message : string) : M unit :=
  notify env aws message;;
  saveIncident env aws incidentId retries "GAVE_UP" "UNHEALED".

(** The build [batchGetBuilds] reports first for a build id. *)
Definition describedBuild (aws : Services) (buildId : option string) : option Build :=
  head (default [] (builds (describe aws [buildId]))).

(** The requests an invocation issues, oldest first. *)
Definition issued (env : Env) (aws : Services) (event : Event) (w : World) : list Call :=
  drop (length (trace w)) (trace (snd (handler env aws event w))).

(** The names by which an escalation message refers to the resource. *)
Definition resourceNames (f : Failure) : list string :=
  match f with
  | BuildFailure buildId => [Js.interp buildId]
  | StageFailure pipelineName stageName _ =>
      [Js.interp pipelineName; Js.interp stageName]
  end.

(** The action the handler chooses for a failure below the retry budget. *)
Definition chosenAction (aws : Services) (f : Failure) : string :=
  match f with
  | BuildFailure buildId =>
      classify (JSON_stringify (describedBuild aws buildId))
  | StageFailure _ _ _ => "RETRY_STAGE"
  end.

(** What [notify] publishes for a message. *)
Definition published (env : Env) (message : string) : list Call :=
  match env_TOPIC_ARN env with
  | Some (String c s) => [Publish (String c s) message]
  | _ => []
  end.

(** *** The invocation as a plan of calls

    An invocation amounts to issuing a list of calls in order until one is
    rejected.  The plan is fixed by the failure and the world the
    invocation starts from; [perform] carries it out.  That the handler
    does just this is lemma [onFailure_perform]. *)

Definition project (aws : Services) (f : Failure) : option string :=
  match f with
  | BuildFailure buildId => describedBuild aws buildId ≫= projectName
  | StageFailure _ _ _ => None
  end.

Definition lookups (env : Env) (f : Failure) : list Call :=
  match f with
  | BuildFailure buildId =>
      [BatchGetBuilds [buildId]; GetItem (env_TABLE env) (identity f)]
  | StageFailure _ _ _ => [GetItem (env_TABLE env) (identity f)]
  end.

Definition message (aws : Services) (f : Failure) (retries : Js.number) : string :=
  match f with
  | BuildFailure buildId => buildMessage buildId (project aws f) retries
  | StageFailure pipelineName stageName _ =>
      stageMessage pipelineName stageName retries
  end.

Definition delay (aws : Services) (f : Failure) : Z :=
  if String.eqb (chosenAction aws f) "BACKOFF_AND_RETRY" then 30000 else 0.

Definition playbook (aws : Services) (f : Failure) (t : Z) : list Call :=
  match f with
  | BuildFailure buildId =>
      (if String.eqb (chosenAction aws f) "BUMP_TIMEOUT_AND_RETRY"
       then [UpdateProject (project aws f) 25] else [])
      ++ (if String.eqb (chosenAction aws f) "BACKOFF_AND_RETRY"
          then [SetTimeout 30000] else [])
      ++ [StartBuild (project aws f)
            [("CACHE_BUSTER", Js.toString (Js.Int (t + delay aws f)))]]
  | StageFailure pipelineName stageName execId =>
      [RetryStageExecution pipelineName execId stageName "FAILED_ACTIONS"]
  end.

Definition plan (env : Env) (aws : Services) (f : Failure) (w : World) : list Call :=
  let r := retryCount w (identity f) in
  lookups env f ++
  if Js.ge r (MAX_RETRIES env)
  then published env (message aws f r)
       ++ [PutItem (env_TABLE env)
             (incidentItem (identity f) r "GAVE_UP" "UNHEALED" (now w))]
  else playbook aws f (now w)
       ++ [PutItem (env_TABLE env)
             (incidentItem (identity f) (Js.succ r) (chosenAction aws f)
                "RETRYING" (now w + delay aws f))].

(** A timer cannot be rejected; a request is when the service says so. *)
Definition refused (aws : Services) (c : Call) : bool :=
  match c with
  | SetTimeout _ => false
  | _ => rejects aws c
  end.

(** What a fulfilled call changes. *)
Definition effect (c : Call) (w : World) : World :=
  match c with
  | PutItem _ item =>
      match item !! "incidentId" with
      | Some (AttrS k) => store k item w
      | _ => w
      end
  | SetTimeout ms => elapse ms w
  | _ => w
  end.

(** The world after a list of calls, all fulfilled. *)
Definition fulfil (cs : list Call) (w : World) : World :=
  fold_left (λ w c, effect c (record c w)) cs w.

Fixpoint perform (aws : Services) (cs : list Call) (w : World) : Result unit * World :=
  match cs with
  | [] => (Ok (), w)
  | c :: cs =>
      if refused aws c then (Throw c, record c w)
      else perform aws cs (effect c (record c w))
  end.

(** Services that reject nothing. *)
Definition answering (aws : Services) : Prop := ∀ c, rejects aws c = false.

(** How many calls of a kind a trace holds. *)
Definition count (kind : Call → bool) (cs : list Call) : nat :=
  length (List.filter kind cs).

(** ** A deployment to run the handler on *)

Module Scenario.

Definition env : Env :=
  {| env_TABLE := Some "SelfHealingIncidents";
     env_TOPIC_ARN := Some "arn:aws:sns:eu-west-1:123456789012:SelfHealingAlerts";
     env_MAX_RETRIES := None |}.

(** The same deployment without a notification topic. *)
Definition env_silent : Env :=
  {| env_TABLE := Some "SelfHealingIncidents";
     env_TOPIC_ARN := None;
     env_MAX_RETRIES := None |}.

(** A failed build of project demo (its serialisation abridged, with
    apostrophes for the quotes of JSON). *)
Definition demo_build : Build :=
  {| projectName := Some "demo";
     json := "{'projectName':'demo','buildStatus':'FAILED'}" |}.

(** Every service answers. *)
Definition healthy : Services :=
  {| rejects := λ _, false;
     describe := λ _, {| builds := Some [demo_build] |} |}.

(** CodeBuild and CodePipeline refuse to start anything. *)
Definition outage : Services :=
  {| rejects := λ c,
       match c with
       | StartBuild _ _ | RetryStageExecution _ _ _ _ => true
       | _ => false
       end;
     describe := λ _, {| builds := Some [demo_build] |} |}.

Definition build_b1 : Event :=
  {| detail_type := Some "CodeBuild Build State Change";
     detail := Some (<["build-id" := "b1"]> (<["build-status" := "FAILED"]> ∅)) |}.

Definition stage_event (pipeline : string) : Event :=
  {| detail_type := Some "CodePipeline Action Execution State Change";
     detail := Some (<["pipeline" := pipeline]>
                     (<["stage" := "Build"]>
                      (<["execution-id" := "e1"]>
                       (<["state" := "FAILED"]> ∅)))) |}.

Definition b1 : Failure := BuildFailure (Some "b1").

Definition p1_Build_e1 : Failure :=
  StageFailure (Some "p1") (Some "Build") (Some "e1").

Definition fresh : World :=
  {| table := ∅; now := 1700000000000; trace := [] |}.

(** A world in which incident [id] has been retried [n] times. *)
Definition retried (id : string) (n : Z) : World :=
  store id (incidentItem id (Js.Int n) "RETRY" "RETRYING" 1690000000000) fresh.

End Scenario.

(** The requests that start the failed unit of work again. *)
Definition is_retrigger (c : Call) : bool :=
  match c with
  | StartBuild _ _ | RetryStageExecution _ _ _ _ => true
  | _ => false
  end.

(** The requests to CodeBuild. *)
Definition is_codebuild (c : Call) : bool :=
  match c with
  | BatchGetBuilds _ | UpdateProject _ _ | StartBuild _ _ => true
  | _ => false
  end.

Definition is_timer (c : Call) : bool :=
  match c with
  | SetTimeout _ => true
  | _ => false
  end.

(** The time a list of calls spends waiting on timers. *)
Definition waited (cs : list Call) : Z :=
  fold_right (λ c t, match c with SetTimeout ms => ms + t | _ => t end) 0 cs.

(** ** Further events, services and deployments *)

Module Cases.

(** A build that succeeded. *)
Definition build_succeeded : Event :=
  {| detail_type := Some "CodeBuild Build State Change";
     detail := Some (<["build-id" := "b1"]> (<["build-status" := "SUCCEEDED"]> ∅)) |}.

(** Build b1 reported as timed out, with further fields. *)
Definition build_b1_timed_out : Event :=
  {| detail_type := Some "CodeBuild Build State Change";
     detail := Some (<["build-id" := "b1"]>
                     (<["build-status" := "TIMED_OUT"]>
                      (<["project-name" := "demo"]> ∅))) |}.

(** An event that passes both guards of the handler. *)
Definition both_kinds : Event :=
  {| detail_type :=
       Some "CodeBuild Build State Change / CodePipeline Action Execution State Change";
     detail := Some (<["build-id" := "b1"]>
                     (<["build-status" := "FAILED"]>
                      (<["state" := "FAILED"]> ∅))) |}.

(** CodeBuild describing a build whose log holds [blob]. *)
Definition reporting (blob : string) : Services :=
  {| rejects := λ _, false;
     describe := λ _, {| builds := Some [{| projectName := Some "demo"; json := blob |}] |} |}.

(** CodeBuild knowing nothing of the build; a [startBuild] without a
    project name is refused, as the SDK refuses a request that lacks a
    required parameter. *)
Definition unknown_build : Services :=
  {| rejects := λ c, match c with StartBuild None _ => true | _ => false end;
     describe := λ _, {| builds := Some [] |} |}.

(** DynamoDB refusing reads. *)
Definition no_reads : Services :=
  {| rejects := λ c, match c with GetItem _ _ => true | _ => false end;
     describe := λ _, {| builds := Some [Scenario.demo_build] |} |}.

(** DynamoDB refusing writes. *)
Definition no_writes : Services :=
  {| rejects := is_putItem;
     describe := λ _, {| builds := Some [Scenario.demo_build] |} |}.

(** SNS refusing to publish. *)
Definition no_sns : Services :=
  {| rejects := is_publish;
     describe := λ _, {| builds := Some [Scenario.demo_build] |} |}.

(** CodeBuild refusing to change a project. *)
Definition no_update : Services :=
  {| rejects := λ c, match c with UpdateProject _ _ => true | _ => false end;
     describe := λ _,
       {| builds := Some [{| projectName := Some "demo";
                             json := "phase BUILD: TIMED_OUT" |}] |} |}.

(** A deployment whose budget does not parse. *)
Definition env_unparsable : Env :=
  {| env_TABLE := Some "SelfHealingIncidents";
     env_TOPIC_ARN := Some "arn:aws:sns:eu-west-1:123456789012:SelfHealingAlerts";
     env_MAX_RETRIES := Some "two" |}.

(** A deployment with a budget of five. *)
Definition env_five : Env :=
  {| env_TABLE := Some "SelfHealingIncidents";
     env_TOPIC_ARN := Some "arn:aws:sns:eu-west-1:123456789012:SelfHealingAlerts";
     env_MAX_RETRIES := Some "5" |}.

End Cases.

(** * Properties *)

(** ** Strings and numbers *)

Section StringFacts.

Implicit Types s t p needle : string.

Lemma append_nil_l s : "" +:+ s = s.
Proof. reflexivity. Qed.

Lemma append_cons a s t : String a s +:+ t = String a (s +:+ t).
Proof. reflexivity. Qed.

Lemma append_nil_r s : s +:+ "" = s.
Proof. induction s as [|a s IH]; [done|]. by rewrite append_cons, IH. Qed.

Lemma append_assoc s t u : (s +:+ t) +:+ u = s +:+ t +:+ u.
Proof. induction s as [|a s IH]; [done|]. by rewrite !append_cons, IH. Qed.

Lemma prefix_nil s : String.prefix "" s = true.
Proof. by destruct s. Qed.

Lemma prefix_spec p s : String.prefix p s = true ↔ ∃ t, s = p +:+ t.
Proof.
  revert s. induction p as [|a p IH]; intros s.
  - rewrite prefix_nil. split; eauto.
  - destruct s as [|b s]; simpl.
    + split; [discriminate | intros [t Ht]; discriminate].
    + destruct (ascii_dec a b) as [->|Hab].
      * rewrite IH. split; intros [t Ht]; exists t;
          rewrite append_cons in *; congruence.
      * split; [discriminate | intros [t Ht]].
        rewrite append_cons in Ht. congruence.
Qed.

Lemma includes_unfold s needle :
  Js.includes s needle =
  if String.prefix needle s then true
  else match s with
       | EmptyString => false
       | String _ s' => Js.includes s' needle
       end.
Proof. by destruct s. Qed.

Lemma includes_prefix s needle :
  String.prefix needle s = true → Js.includes s needle = true.
Proof. intros H. by rewrite includes_unfold, H. Qed.

Lemma includes_spec s needle : Js.includes s needle = true ↔ Contains s needle.
Proof.
  unfold Contains. split.
  - induction s as [|a s IH]; rewrite includes_unfold.
    + destruct (String.prefix needle "") eqn:Hp; [|done].
      apply prefix_spec in Hp as [t Ht]. exists "", t. done.
    + destruct (String.prefix needle (String a s)) eqn:Hp.
      * apply prefix_spec in Hp as [t Ht]. exists "", t. done.
      * intros (pre & post & ->)%IH. exists (String a pre), post. done.
  - intros (pre & post & ->). induction pre as [|a pre IH].
    + apply includes_prefix, prefix_spec. eauto.
    + rewrite append_cons, includes_unfold.
      by destruct (String.prefix needle _).
Qed.

Lemma toLowerCase_app s t :
  Js.toLowerCase (s +:+ t) = Js.toLowerCase s +:+ Js.toLowerCase t.
Proof.
  induction s as [|a s IH]; [done|].
  rewrite append_cons. simpl. by rewrite IH.
Qed.

Lemma toLowerCase_split s a b :
  Js.toLowerCase s = a +:+ b →
  ∃ a' b', s = a' +:+ b' ∧ Js.toLowerCase a' = a ∧ Js.toLowerCase b' = b.
Proof.
  revert s. induction a as [|c a IH]; intros s H.
  - exists "", s. done.
  - destruct s as [|c' s]; [discriminate|].
    rewrite append_cons in H. simpl in H.
    injection H as Hc H. apply IH in H as (a' & b' & -> & <- & <-).
    exists (String c' a'), b'. simpl. by rewrite Hc.
Qed.

Lemma includes_toLowerCase_spec s needle :
  Js.includes (Js.toLowerCase s) needle = true ↔ ContainsAnyCase s needle.
Proof.
  rewrite includes_spec. unfold Contains, ContainsAnyCase. split.
  - intros (pre & post & H).
    apply toLowerCase_split in H as (pre' & rest & -> & <- & H).
    apply toLowerCase_split in H as (mid & post' & -> & <- & <-).
    eauto.
  - intros (pre & mid & post & -> & <-).
    exists (Js.toLowerCase pre), (Js.toLowerCase post).
    by rewrite !toLowerCase_app.
Qed.

End StringFacts.

Section NumberFacts.

Lemma takeDigits_uint d :
  Js.takeDigits (NilEmpty.string_of_uint d) = NilEmpty.string_of_uint d.
Proof. induction d; simpl; congruence. Qed.

Lemma parseInt_digits c r :
  Js.isDigit c = true →
  Js.parseInt (String c r) =
    match NilZero.uint_of_string (Js.takeDigits (String c r)) with
    | Some d => Js.Int (Z.of_uint d)
    | None => Js.NaN
    end
  ∧ Js.parseInt (String "-" (String c r)) =
    match NilZero.uint_of_string (Js.takeDigits (String c r)) with
    | Some d => Js.Int (- Z.of_uint d)
    | None => Js.NaN
    end.
Proof.
  intros Hc.
  destruct c as [[] [] [] [] [] [] [] []]; try discriminate Hc; split; reflexivity.
Qed.

Lemma string_of_uint_digit d :
  d ≠ Nil →
  ∃ c r, NilEmpty.string_of_uint d = String c r ∧ Js.isDigit c = true.
Proof. destruct d; try done; intros _; by eexists _, _. Qed.

Lemma parseInt_uint d :
  d ≠ Nil →
  Js.parseInt (NilEmpty.string_of_uint d) = Js.Int (Z.of_uint d)
  ∧ Js.parseInt (String "-" (NilEmpty.string_of_uint d)) = Js.Int (- Z.of_uint d).
Proof.
  intros Hd. pose proof (NilZero.usu d Hd) as Hu.
  assert (NilZero.string_of_uint d = NilEmpty.string_of_uint d) as Hs
    by (by destruct d).
  rewrite Hs in Hu. pose proof (takeDigits_uint d) as Ht.
  destruct (string_of_uint_digit d Hd) as (c & r & Hcr & Hc).
  rewrite Hcr in *.
  destruct (parseInt_digits c r Hc) as [-> ->].
  by rewrite Ht, Hu.
Qed.

(** What [String(n)] prints, [parseInt] reads back. *)
Lemma parseInt_toString z : Js.parseInt (Js.toString (Js.Int z)) = Js.Int z.
Proof.
  rewrite <- (DecimalZ.of_to z) at 2. unfold Js.toString.
  destruct z as [|p|p]; [done| |].
  - pose proof (DecimalPos.Unsigned.to_uint_nonnil p) as Hp.
    cbn [Z.to_int Z.of_int NilZero.string_of_int].
    replace (NilZero.string_of_uint (Pos.to_uint p))
      with (NilEmpty.string_of_uint (Pos.to_uint p))
      by (by destruct (Pos.to_uint p)).
    by apply parseInt_uint.
  - pose proof (DecimalPos.Unsigned.to_uint_nonnil p) as Hp.
    cbn [Z.to_int Z.of_int NilZero.string_of_int].
    replace (NilZero.string_of_uint (Pos.to_uint p))
      with (NilEmpty.string_of_uint (Pos.to_uint p))
      by (by destruct (Pos.to_uint p)).
    by apply parseInt_uint.
Qed.

(** [String(n)] is never the empty string, so a stored count is truthy. *)
Lemma toString_cons n : ∃ c s, Js.toString n = String c s.
Proof.
  destruct n as [|z]; [by eexists _, _|].
  unfold Js.toString. destruct z as [|p|p]; simpl; [by eexists _, _| |].
  - pose proof (DecimalPos.Unsigned.to_uint_nonnil p) as Hp.
    destruct (Pos.to_uint p); try done; by eexists _, _.
  - by eexists _, _.
Qed.

End NumberFacts.

(** ** Running the handler *)

Section Runs.

Context (env : Env) (aws : Services).

Lemma bind_run {A B : Type} (m : M A) (k : A → M B) w :
  (m ≫= k) w =
  match m w with
  | (Ok a, w') => k a w'
  | (Throw e, w') => (Throw e, w')
  end.
Proof. reflexivity. Qed.

Lemma ret_run {A : Type} (a : A) w : (mret a : M A) w = (Ok a, w).
Proof. reflexivity. Qed.

Lemma read_run {A : Type} (f : World → A) w : read f w = (Ok (f w), w).
Proof. reflexivity. Qed.

Lemma write_run f w : write f w = (Ok (), f w).
Proof. reflexivity. Qed.

Lemma request_run c w :
  request aws c w = (if rejects aws c then Throw c else Ok (), record c w).
Proof. unfold request. rewrite bind_run. by destruct (rejects aws c). Qed.

Lemma getRetries_run id w :
  getRetries env aws id w =
  (if rejects aws (GetItem (env_TABLE env) id)
   then Throw (GetItem (env_TABLE env) id) else Ok (retryCount w id),
   record (GetItem (env_TABLE env) id) w).
Proof.
  unfold getRetries, getItem, TABLE. rewrite !bind_run, request_run.
  destruct (rejects aws _); [done|].
  unfold read, retryCount. simpl.
  destruct (table w !! id) as [item|]; [|done].
  by destruct (item !! "retries") as [[|[]]|].
Qed.

Lemma incidentItem_key id r a st t :
  incidentItem id r a st t !! "incidentId" = Some (AttrS id).
Proof. unfold incidentItem. by rewrite lookup_insert_eq. Qed.

Lemma incidentItem_retries id r a st t :
  incidentItem id r a st t !! "retries" = Some (AttrN (Js.toString r)).
Proof. unfold incidentItem. by simplify_map_eq. Qed.

Lemma incidentItem_lastAction id r a st t :
  incidentItem id r a st t !! "lastAction" = Some (AttrS a).
Proof. unfold incidentItem. by simplify_map_eq. Qed.

Lemma incidentItem_status id r a st t :
  incidentItem id r a st t !! "status" = Some (AttrS st).
Proof. unfold incidentItem. by simplify_map_eq. Qed.

Lemma saveIncident_run id r a st w :
  saveIncident env aws id r a st w =
  let c := PutItem (env_TABLE env) (incidentItem id r a st (now w)) in
  if rejects aws c then (Throw c, record c w)
  else (Ok (), store id (incidentItem id r a st (now w)) (record c w)).
Proof.
  unfold saveIncident, putItem, Date_now, TABLE.
  rewrite !bind_run. unfold read at 1. cbv beta iota.
  rewrite bind_run, request_run, incidentItem_key.
  by destruct (rejects aws _).
Qed.

Lemma notify_run message w :
  notify env aws message w =
  match env_TOPIC_ARN env with
  | Some (String c s) =>
      (if rejects aws (Publish (String c s) message)
       then Throw (Publish (String c s) message) else Ok (),
       record (Publish (String c s) message) w)
  | _ => (Ok (), w)
  end.
Proof.
  unfold notify, TOPIC_ARN, publish.
  destruct (env_TOPIC_ARN env) as [[|c s]|]; try done. apply request_run.
Qed.

Lemma handler_dispatch event :
  handler env aws event =
  match recognise event with
  | Some f => onFailure env aws f
  | None => mret ()
  end.
Proof.
  unfold handler, recognise.
  destruct (Js.includes _ "CodeBuild Build State Change" && _); [done|].
  destruct (Js.includes _ "CodePipeline Action Execution State Change"); [|done].
  by destruct (bool_decide _).
Qed.

Lemma escalate_run id r message w :
  escalate env aws id r message w =
  match env_TOPIC_ARN env with
  | Some (String c s) =>
      if rejects aws (Publish (String c s) message)
      then (Throw (Publish (String c s) message),
            record (Publish (String c s) message) w)
      else saveIncident env aws id r "GAVE_UP" "UNHEALED"
             (record (Publish (String c s) message) w)
  | _ => saveIncident env aws id r "GAVE_UP" "UNHEALED" w
  end.
Proof.
  unfold escalate. rewrite bind_run, notify_run.
  destruct (env_TOPIC_ARN env) as [[|c s]|]; try done.
  by destruct (rejects aws _).
Qed.

Lemma onStageFailure_run p s e w :
  onStageFailure env aws p s e w =
  let id := stageIncidentId e s in
  let r := retryCount w id in
  let get := GetItem (env_TABLE env) id in
  let retry := RetryStageExecution p e s "FAILED_ACTIONS" in
  if rejects aws get then (Throw get, record get w)
  else if Js.ge r (MAX_RETRIES env)
  then escalate env aws id r (stageMessage p s r) (record get w)
  else if rejects aws retry then (Throw retry, record retry (record get w))
  else saveIncident env aws id (Js.succ r) "RETRY_STAGE" "RETRYING"
         (record retry (record get w)).
Proof.
  unfold onStageFailure. rewrite bind_run, getRetries_run. cbv zeta.
  destruct (rejects aws (GetItem _ _)); [done|].
  destruct (Js.ge _ _); [done|].
  unfold retryStageExecution. rewrite bind_run, request_run.
  by destruct (rejects aws _).
Qed.

Lemma onBuildFailure_run b w :
  onBuildFailure env aws b w =
  let project := describedBuild aws b ≫= projectName in
  let id := buildIncidentId b in
  let r := retryCount w id in
  let action := classify (JSON_stringify (describedBuild aws b)) in
  let describe := BatchGetBuilds [b] in
  let get := GetItem (env_TABLE env) id in
  let update := UpdateProject project 25 in
  let w2 := record get (record describe w) in
  let w3 :=
    if String.eqb action "BUMP_TIMEOUT_AND_RETRY" then record update w2 else w2 in
  let w4 :=
    if String.eqb action "BACKOFF_AND_RETRY"
    then elapse 30000 (record (SetTimeout 30000) w3) else w3 in
  let start :=
    StartBuild project [("CACHE_BUSTER", Js.toString (Js.Int (now w4)))] in
  if rejects aws describe then (Throw describe, record describe w)
  else if rejects aws get then (Throw get, w2)
  else if Js.ge r (MAX_RETRIES env)
  then escalate env aws id r (buildMessage b project r) w2
  else if String.eqb action "BUMP_TIMEOUT_AND_RETRY" && rejects aws update
  then (Throw update, w3)
  else if rejects aws start then (Throw start, record start w4)
  else saveIncident env aws id (Js.succ r) action "RETRYING" (record start w4).
Proof.
  unfold onBuildFailure, batchGetBuilds. rewrite !bind_run, request_run.
  cbv zeta.
  destruct (rejects aws (BatchGetBuilds _)); [done|].
  rewrite ret_run. cbv beta iota. fold (describedBuild aws b).
  rewrite bind_run, getRetries_run.
  destruct (rejects aws (GetItem _ _)); [done|].
  destruct (Js.ge _ _); [done|].
  unfold updateProject, setTimeout, startBuild, Date_now.
  destruct (String.eqb _ "BUMP_TIMEOUT_AND_RETRY"),
    (String.eqb _ "BACKOFF_AND_RETRY"); cbn [andb];
    repeat first
      [ progress (rewrite ?bind_run, ?ret_run, ?read_run, ?write_run,
                  ?request_run; cbv beta iota)
      | match goal with
        | |- context [rejects aws ?c] => destruct (rejects aws c)
        end ];
    done.
Qed.

Lemma perform_app cs1 cs2 w :
  perform aws (cs1 ++ cs2) w =
  match perform aws cs1 w with
  | (Ok _, w') => perform aws cs2 w'
  | (Throw c, w') => (Throw c, w')
  end.
Proof.
  revert w. induction cs1 as [|c cs1 IH]; intros w; simpl; [done|].
  by destruct (refused aws c).
Qed.

Lemma perform_put id r a st w :
  perform aws [PutItem (env_TABLE env) (incidentItem id r a st (now w))] w =
  saveIncident env aws id r a st w.
Proof.
  rewrite saveIncident_run. simpl. rewrite incidentItem_key.
  by destruct (rejects aws _).
Qed.

Lemma perform_published id r message w :
  perform aws
    (published env message
     ++ [PutItem (env_TABLE env) (incidentItem id r "GAVE_UP" "UNHEALED" (now w))])
    w =
  escalate env aws id r message w.
Proof.
  rewrite escalate_run. unfold published.
  destruct (env_TOPIC_ARN env) as [[|c s]|]; try apply perform_put.
  rewrite perform_app. simpl.
  destruct (rejects aws _); [done|]. apply (perform_put _ _ _ _ (record _ w)).
Qed.

(** The handler carries out the plan. *)
Lemma onFailure_perform f w :
  onFailure env aws f w = perform aws (plan env aws f w) w.
Proof.
  destruct f as [b|p s e]; unfold onFailure, plan, lookups.
  - rewrite onBuildFailure_run. cbv zeta.
    change (perform aws ([?a; ?b] ++ ?l) w) with
      (if rejects aws a then (Throw a, record a w)
       else if rejects aws b then (Throw b, record b (record a w))
       else perform aws l (record b (record a w))).
    cbn [identity].
    destruct (rejects aws (BatchGetBuilds _)); [done|].
    destruct (rejects aws (GetItem _ _)); [done|].
    destruct (Js.ge _ _).
    { symmetry. apply (perform_published _ _ _ (record _ (record _ w))). }
    unfold playbook, delay, project, chosenAction.
    destruct (String.eqb _ "BUMP_TIMEOUT_AND_RETRY"),
      (String.eqb _ "BACKOFF_AND_RETRY");
      rewrite saveIncident_run;
      cbn [andb app perform refused effect]; rewrite ?incidentItem_key;
      cbn [now elapse record store table trace]; rewrite ?Z.add_0_r;
      repeat match goal with
        | |- context [rejects aws ?c] => destruct (rejects aws c)
        end;
      done.
  - rewrite onStageFailure_run. cbv zeta. cbn [identity app perform refused effect].
    destruct (rejects aws (GetItem _ _)); [done|].
    destruct (Js.ge _ _).
    { symmetry. apply (perform_published _ _ _ (record _ w)). }
    unfold playbook, delay, chosenAction. cbn [app perform refused effect String.eqb].
    destruct (rejects aws (RetryStageExecution _ _ _ _)); [done|].
    cbn. rewrite Z.add_0_r.
    symmetry. apply (perform_put _ _ _ _ (record _ (record _ w))).
Qed.

Lemma handler_perform event w :
  handler env aws event w =
  match recognise event with
  | Some f => perform aws (plan env aws f w) w
  | None => (Ok (), w)
  end.
Proof.
  rewrite handler_dispatch. destruct (recognise event); [|done].
  apply onFailure_perform.
Qed.

End Runs.

(** ** Plans and their execution *)

Section Plans.

Context (env : Env) (aws : Services).

Lemma fulfil_snoc cs c w :
  fulfil (cs ++ [c]) w = effect c (record c (fulfil cs w)).
Proof. unfold fulfil. by rewrite fold_left_app. Qed.

Lemma trace_effect c w : trace (effect c w) = trace w.
Proof. destruct c; try done. simpl. by destruct (_ !! _) as [[]|]. Qed.

Lemma table_effect c w :
  is_putItem c = false → table (effect c w) = table w.
Proof. by destruct c. Qed.

Lemma trace_fulfil cs w : trace (fulfil cs w) = trace w ++ cs.
Proof.
  induction cs as [|c cs IH] using rev_ind.
  - by rewrite app_nil_r.
  - by rewrite fulfil_snoc, trace_effect, app_assoc, <- IH.
Qed.

Lemma table_fulfil cs w :
  Forall (λ c, is_putItem c = false) cs → table (fulfil cs w) = table w.
Proof.
  induction cs as [|c cs IH] using rev_ind; [done|].
  intros [Hcs Hc%Forall_inv]%Forall_app.
  rewrite fulfil_snoc, table_effect by done. by apply IH.
Qed.

(** Carrying out a list of calls stops at the first refused one. *)
Lemma perform_inv cs w :
  (∃ before c after,
      cs = before ++ c :: after
      ∧ Forall (λ c, refused aws c = false) before
      ∧ refused aws c = true
      ∧ perform aws cs w = (Throw c, record c (fulfil before w)))
  ∨ (Forall (λ c, refused aws c = false) cs
     ∧ perform aws cs w = (Ok (), fulfil cs w)).
Proof.
  revert w. induction cs as [|c cs IH]; intros w.
  - right. done.
  - simpl. destruct (refused aws c) eqn:Hc.
    + left. exists [], c, cs. done.
    + destruct (IH (effect c (record c w)))
        as [(before & c' & after & -> & Hb & Hc' & ->)|[Hcs ->]].
      * left. exists (c :: before), c', after. split_and!; try done.
        by constructor.
      * right. split; [by constructor | done].
Qed.

Lemma refused_executor c :
  is_executor c = true → refused aws c = rejects aws c.
Proof. by destruct c. Qed.

Lemma refused_rejects c : refused aws c = true → rejects aws c = true.
Proof. by destruct c. Qed.

Lemma answering_refused cs :
  answering aws → Forall (λ c, refused aws c = false) cs.
Proof.
  intros Ha. apply Forall_forall. intros c _. destruct c; simpl; auto.
Qed.

(** The plan ends with its only [PutItem]; what that stores depends on the
    budget. *)
Lemma plan_shape f w :
  let r := retryCount w (identity f) in
  ∃ init r' a st t,
    plan env aws f w =
      init ++ [PutItem (env_TABLE env) (incidentItem (identity f) r' a st t)]
    ∧ Forall (λ c, is_putItem c = false) init
    ∧ (Js.ge r (MAX_RETRIES env) = true
       ∧ r' = r ∧ a = "GAVE_UP" ∧ st = "UNHEALED" ∧ t = now w
       ∧ init = lookups env f ++ published env (message aws f r)
       ∨ Js.ge r (MAX_RETRIES env) = false
         ∧ r' = Js.succ r ∧ a = chosenAction aws f ∧ st = "RETRYING"
         ∧ t = now w + delay aws f
         ∧ init = lookups env f ++ playbook aws f (now w)).
Proof.
  intros r. unfold plan. fold r.
  assert (Forall (λ c, is_putItem c = false) (lookups env f)) as Hl
    by (destruct f; repeat constructor).
  destruct (Js.ge r (MAX_RETRIES env)) eqn:Hge.
  - eexists _, _, _, _, _. rewrite app_assoc. split_and!; [done| |left; done].
    apply Forall_app. split; [done|].
    unfold published. destruct (env_TOPIC_ARN env) as [[|c s]|]; repeat constructor.
  - eexists _, _, _, _, _. rewrite app_assoc. split_and!; [done| |right; done].
    apply Forall_app. split; [done|].
    destruct f; simpl; repeat case_match; repeat constructor.
Qed.

Lemma retryCount_table w w' id :
  table w' = table w → retryCount w' id = retryCount w id.
Proof. unfold retryCount. by intros ->. Qed.

Lemma retryCount_store_ne k item w id :
  k ≠ id → retryCount (store k item w) id = retryCount w id.
Proof. intros Hk. unfold retryCount, store. simpl. by rewrite lookup_insert_ne. Qed.

Lemma retryCount_store id n a st t w :
  retryCount (store id (incidentItem id (Js.Int n) a st t) w) id = Js.Int n.
Proof.
  unfold retryCount, store. simpl.
  rewrite lookup_insert_eq, incidentItem_retries.
  destruct (toString_cons (Js.Int n)) as (c & s & Hcs).
  rewrite Hcs, <- Hcs. apply parseInt_toString.
Qed.

(** A prefix that stops before the end of [init ++ [x]] lies within
    [init]. *)
Lemma before_last {A : Type} (before after init : list A) (c x : A) :
  before ++ c :: after = init ++ [x] →
  (after = [] ∧ before = init ∧ c = x)
  ∨ ∃ after', after = after' ++ [x] ∧ init = before ++ c :: after'.
Proof.
  destruct after as [|y after' _] using rev_ind; intros H.
  - left. apply app_inj_tail in H as [-> ->]. done.
  - right. exists after'.
    change (before ++ c :: after' ++ [y]) with (before ++ (c :: after') ++ [y]) in H.
    rewrite app_assoc in H. apply app_inj_tail in H as [<- <-]. done.
Qed.

(** An invocation for a recognised failure either stops at a rejected call,
    leaving the table as it was, or issues the whole plan and stores the
    item of its final [PutItem]. *)
Lemma handler_inv event f w :
  recognise event = Some f →
  let r := retryCount w (identity f) in
  (∃ before c after,
      plan env aws f w = before ++ c :: after
      ∧ Forall (λ c, refused aws c = false) before
      ∧ refused aws c = true
      ∧ handler env aws event w = (Throw c, record c (fulfil before w))
      ∧ issued env aws event w = before ++ [c]
      ∧ Forall (λ c, is_putItem c = false) before
      ∧ table (snd (handler env aws event w)) = table w)
  ∨ (Forall (λ c, refused aws c = false) (plan env aws f w)
     ∧ handler env aws event w = (Ok (), fulfil (plan env aws f w) w)
     ∧ issued env aws event w = plan env aws f w
     ∧ ∃ item,
         last (plan env aws f w) = Some (PutItem (env_TABLE env) item)
         ∧ item !! "incidentId" = Some (AttrS (identity f))
         ∧ table (snd (handler env aws event w)) = <[identity f := item]> (table w)).
Proof.
  intros Hf r. unfold issued. rewrite handler_perform, Hf.
  destruct (plan_shape f w) as (init & r' & a & st & t & Hplan & Hinit & _).
  destruct (perform_inv (plan env aws f w) w)
    as [(before & c & after & Hcs & Hb & Hc & ->)|[Hcs ->]].
  - left. exists before, c, after.
    assert (Forall (λ c, is_putItem c = false) before) as Hput.
    { rewrite Hplan in Hcs. symmetry in Hcs.
      apply before_last in Hcs as [(_ & -> & _)|(after' & _ & ->)]; [done|].
      by apply Forall_app in Hinit as [? _]. }
    split_and!; try done.
    + simpl. rewrite trace_fulfil, <- app_assoc. by rewrite drop_app_length.
    + simpl. by apply table_fulfil.
  - right. split_and!; try done.
    + simpl. by rewrite trace_fulfil, drop_app_length.
    + eexists. rewrite Hplan, last_snoc. split_and!; [done|apply incidentItem_key|].
      simpl. rewrite fulfil_snoc. simpl. rewrite incidentItem_key. simpl.
      by rewrite table_fulfil.
Qed.

Lemma handler_unrecognised event w :
  recognise event = None →
  handler env aws event w = (Ok (), w) ∧ issued env aws event w = [].
Proof.
  intros Hf. unfold issued. rewrite handler_perform, Hf. simpl.
  by rewrite drop_all.
Qed.

End Plans.

(** ** The classifier *)

Lemma classify_cases raw :
  classify raw =
  if Js.includes (Js.toLowerCase (Js.or_else raw "")) "rate exceeded"
  then "BACKOFF_AND_RETRY"
  else if Js.includes (Js.or_else raw "") "TIMED_OUT"
  then "BUMP_TIMEOUT_AND_RETRY" else "RETRY".
Proof. unfold classify. by repeat case_match. Qed.

Lemma includes_false s needle :
  Js.includes s needle = false ↔ ¬ Contains s needle.
Proof. rewrite <- includes_spec. by destruct (Js.includes s needle). Qed.

Lemma includes_toLowerCase_false s needle :
  Js.includes (Js.toLowerCase s) needle = false ↔ ¬ ContainsAnyCase s needle.
Proof.
  rewrite <- includes_toLowerCase_spec. by destruct (Js.includes _ needle).
Qed.

(** C1. The action of a build failure is RETRY by default, becomes
    BUMP_TIMEOUT_AND_RETRY when the serialised build contains "TIMED_OUT",
    and becomes BACKOFF_AND_RETRY when it contains "rate exceeded" in any
    mix of cases; the rate-limit rule is evaluated last and wins when both
    markers are present, and a blob with neither marker yields RETRY. *)
Theorem classify_last_match_wins (raw : option string) :
  let blob := Js.or_else raw "" in
  (ContainsAnyCase blob "rate exceeded" → classify raw = "BACKOFF_AND_RETRY")
  ∧ (¬ ContainsAnyCase blob "rate exceeded" → Contains blob "TIMED_OUT" →
     classify raw = "BUMP_TIMEOUT_AND_RETRY")
  ∧ (¬ ContainsAnyCase blob "rate exceeded" → ¬ Contains blob "TIMED_OUT" →
     classify raw = "RETRY").
Proof.
  intros blob. rewrite classify_cases. fold blob. split_and!.
  - intros H%includes_toLowerCase_spec. by rewrite H.
  - intros H1%includes_toLowerCase_false H2%includes_spec. by rewrite H1, H2.
  - intros H1%includes_toLowerCase_false H2%includes_false. by rewrite H1, H2.
Qed.

(** Both markers present: the rate-limit rule decides. *)
Lemma classify_last_match_wins_witness :
  ContainsAnyCase "phase TIMED_OUT: Rate Exceeded" "rate exceeded"
  ∧ Contains "phase TIMED_OUT: Rate Exceeded" "TIMED_OUT"
  ∧ classify (Some "phase TIMED_OUT: Rate Exceeded") = "BACKOFF_AND_RETRY".
Proof.
  assert (ContainsAnyCase "phase TIMED_OUT: Rate Exceeded" "rate exceeded") as H
    by (by exists "phase TIMED_OUT: ", "Rate Exceeded", "").
  split_and!; [exact H | by exists "phase ", ": Rate Exceeded" |].
  exact (proj1 (classify_last_match_wins (Some "phase TIMED_OUT: Rate Exceeded")) H).
Defined.

(** C9. The timeout check is case-sensitive and the rate-limit check is
    not: a blob that spells the timeout marker only in another case and
    holds no rate-limit phrase is classified RETRY. *)
Theorem timeout_marker_is_case_sensitive (raw : option string) :
  let blob := Js.or_else raw "" in
  ContainsAnyCase blob "timed_out" →
  ¬ Contains blob "TIMED_OUT" →
  ¬ ContainsAnyCase blob "rate exceeded" →
  classify raw = "RETRY"
  ∧ classify (Some "phase timed_out") = "RETRY"
  ∧ classify (Some "phase TIMED_OUT") = "BUMP_TIMEOUT_AND_RETRY"
  ∧ classify (Some "RATE Exceeded") = classify (Some "rate exceeded").
Proof.
  intros blob _ H1%includes_false H2%includes_toLowerCase_false.
  split; [|done]. rewrite classify_cases. fold blob. by rewrite H1, H2.
Qed.

(** A build log that says [Timed_Out]. *)
Lemma timeout_marker_is_case_sensitive_witness :
  classify (Some "phase Timed_Out after 5 minutes") = "RETRY".
Proof.
  refine (proj1 (timeout_marker_is_case_sensitive
                   (Some "phase Timed_Out after 5 minutes") _ _ _)).
  - by exists "phase ", "Timed_Out", " after 5 minutes".
  - apply includes_false. reflexivity.
  - apply includes_toLowerCase_false. reflexivity.
Defined.

(** ** Escalation *)

Lemma Contains_here needle post : Contains (needle +:+ post) needle.
Proof. by exists "", post. Qed.

Lemma Contains_append_r s t needle : Contains t needle → Contains (s +:+ t) needle.
Proof.
  intros (pre & post & ->). exists (s +:+ pre), post. by rewrite append_assoc.
Qed.

Lemma message_names aws f r :
  Forall (Contains (message aws f r)) (resourceNames f)
  ∧ Contains (message aws f r) (Js.toString r).
Proof.
  destruct f; unfold message, resourceNames, buildMessage, stageMessage;
    repeat constructor;
    repeat first [ apply Contains_here | apply Contains_append_r ].
Qed.

Lemma plan_over_budget env aws f w :
  Js.ge (retryCount w (identity f)) (MAX_RETRIES env) = true →
  plan env aws f w =
  lookups env f ++ published env (message aws f (retryCount w (identity f)))
  ++ [PutItem (env_TABLE env)
        (incidentItem (identity f) (retryCount w (identity f))
           "GAVE_UP" "UNHEALED" (now w))].
Proof. intros H. unfold plan. by rewrite H. Qed.

Lemma plan_below_budget env aws f w :
  Js.ge (retryCount w (identity f)) (MAX_RETRIES env) = false →
  plan env aws f w =
  lookups env f ++ playbook aws f (now w)
  ++ [PutItem (env_TABLE env)
        (incidentItem (identity f) (Js.succ (retryCount w (identity f)))
           (chosenAction aws f) "RETRYING" (now w + delay aws f))].
Proof. intros H. unfold plan. by rewrite H. Qed.

Lemma lookups_are_lookups env f : Forall (λ c, is_lookup c = true) (lookups env f).
Proof. destruct f; repeat constructor. Qed.

Lemma published_spec env message :
  Forall (λ c, is_remediation c = false) (published env message)
  ∧ Forall (λ c, is_putItem c = false) (published env message).
Proof.
  unfold published. destruct (env_TOPIC_ARN env) as [[|c s]|]; repeat constructor.
Qed.

Lemma escalation_plan_no_remediation env aws f w :
  Js.ge (retryCount w (identity f)) (MAX_RETRIES env) = true →
  Forall (λ c, is_remediation c = false) (plan env aws f w).
Proof.
  intros H. rewrite plan_over_budget by done.
  rewrite !Forall_app. split_and!.
  - destruct f; repeat constructor.
  - apply published_spec.
  - repeat constructor.
Qed.

Lemma Forall_stopped {A : Type} (P : A → Prop) (before after : list A) c :
  Forall P (before ++ c :: after) → Forall P (before ++ [c]).
Proof.
  rewrite !Forall_app. intros [Hb Hc]. split; [done|].
  apply Forall_inv in Hc. by constructor.
Qed.

(** C2. An event for an identity whose stored retry count has reached the
    budget is not remediated: no executor request and no backoff is issued
    and the stored count stays what it was, whatever the services do.  When
    the services answer, the invocation notifies with a message naming the
    resource and the count, and its last request stores for the incident
    an item whose retries attribute is the count unchanged, whose
    lastAction is GAVE_UP and whose status is UNHEALED. *)
Theorem escalation_at_budget env aws event f w (m n : Z) :
  recognise event = Some f →
  MAX_RETRIES env = Js.Int m →
  retryCount w (identity f) = Js.Int n →
  m ≤ n →
  let w' := snd (handler env aws event w) in
  let calls := issued env aws event w in
  let terminal :=
    incidentItem (identity f) (Js.Int n) "GAVE_UP" "UNHEALED" (now w) in
  Forall (λ c, is_remediation c = false) calls
  ∧ retryCount w' (identity f) = Js.Int n
  ∧ (answering aws →
     fst (handler env aws event w) = Ok ()
     ∧ table w' !! identity f = Some terminal
     ∧ (∃ item,
          table w' !! identity f = Some item
          ∧ item !! "incidentId" = Some (AttrS (identity f))
          ∧ item !! "retries" = Some (AttrN (Js.toString (Js.Int n)))
          ∧ item !! "lastAction" = Some (AttrS "GAVE_UP")
          ∧ item !! "status" = Some (AttrS "UNHEALED")
          ∧ last calls = Some (PutItem (env_TABLE env) item))
     ∧ ∃ reads message,
         calls = reads ++ published env message
                   ++ [PutItem (env_TABLE env) terminal]
         ∧ Forall (λ c, is_lookup c = true) reads
         ∧ Forall (Contains message) (resourceNames f)
         ∧ Contains message (Js.toString (Js.Int n))).
Proof.
  intros Hf Hm Hn Hmn w' calls terminal. subst w' calls.
  assert (Js.ge (retryCount w (identity f)) (MAX_RETRIES env) = true) as Hge.
  { rewrite Hm, Hn. simpl. by apply Z.leb_le. }
  pose proof (escalation_plan_no_remediation env aws f w Hge) as Hplan.
  pose proof (plan_over_budget env aws f w Hge) as Heq. rewrite Hn in Heq.
  destruct (handler_inv env aws event f w Hf)
    as [(before & c & after & Hcs & Hb & Hc & Hrun & Hiss & Hput & Htab)
       |(Hall & Hrun & Hiss & item & Hlast & Hkey & Htab)].
  - split_and!.
    + rewrite Hiss. eapply Forall_stopped. by rewrite <- Hcs.
    + by rewrite (retryCount_table _ _ _ Htab).
    + intros Ha. pose proof (answering_refused aws [c] Ha) as Hno.
      apply Forall_inv in Hno. congruence.
  - rewrite Heq, !app_assoc, last_snoc in Hlast. injection Hlast as <-.
    split_and!.
    + by rewrite Hiss.
    + rewrite (retryCount_table (store (identity f) terminal w)) by exact Htab.
      apply retryCount_store.
    + intros _.
      split_and!; [by rewrite Hrun|by rewrite Htab, lookup_insert_eq| |].
      { exists terminal.
        split_and!; [by rewrite Htab, lookup_insert_eq|apply incidentItem_key
                    |apply incidentItem_retries|apply incidentItem_lastAction
                    |apply incidentItem_status|].
        by rewrite Hiss, Heq, !app_assoc, last_snoc. }
      exists (lookups env f), (message aws f (Js.Int n)).
      rewrite Hiss. split_and!; [done|apply lookups_are_lookups|..];
        apply message_names.
Qed.

(** Build b1 after two retries, budget two. *)
Lemma escalation_at_budget_witness :
  retryCount
    (snd (handler Scenario.env Scenario.healthy Scenario.build_b1
            (Scenario.retried "codebuild:b1" 2)))
    "codebuild:b1" = Js.Int 2.
Proof.
  refine (proj1 (proj2 (escalation_at_budget Scenario.env Scenario.healthy
            Scenario.build_b1 Scenario.b1 (Scenario.retried "codebuild:b1" 2)
            2 2 _ _ _ _))).
  - vm_compute. reflexivity.
  - vm_compute. reflexivity.
  - vm_compute. reflexivity.
  - lia.
Defined.

Lemma published_unset env message :
  env_TOPIC_ARN env = None ∨ env_TOPIC_ARN env = Some "" →
  published env message = [].
Proof. unfold published. by intros [-> | ->]. Qed.

(** C10. Without a configured topic the notifier returns at once, without
    publishing and without error whatever SNS would have answered; at the
    budget the escalation message is dropped and the terminal record is
    stored all the same: the last request writes for the incident an item
    with the count unchanged, lastAction GAVE_UP and status UNHEALED. *)
Theorem unset_topic_drops_escalation env aws :
  env_TOPIC_ARN env = None ∨ env_TOPIC_ARN env = Some "" →
  (∀ message w, notify env aws message w = (Ok (), w))
  ∧ (∀ event f w (m n : Z),
       recognise event = Some f →
       MAX_RETRIES env = Js.Int m →
       retryCount w (identity f) = Js.Int n →
       m ≤ n →
       (∀ c, is_publish c = false → rejects aws c = false) →
       let w' := snd (handler env aws event w) in
       fst (handler env aws event w) = Ok ()
       ∧ Forall (λ c, is_publish c = false) (issued env aws event w)
       ∧ table w' !! identity f =
           Some (incidentItem (identity f) (Js.Int n) "GAVE_UP" "UNHEALED" (now w))
       ∧ ∃ item,
           table w' !! identity f = Some item
           ∧ item !! "incidentId" = Some (AttrS (identity f))
           ∧ item !! "retries" = Some (AttrN (Js.toString (Js.Int n)))
           ∧ item !! "lastAction" = Some (AttrS "GAVE_UP")
           ∧ item !! "status" = Some (AttrS "UNHEALED")
           ∧ last (issued env aws event w) = Some (PutItem (env_TABLE env) item)).
Proof.
  intros Hunset. split.
  - intros message w. rewrite notify_run. by destruct Hunset as [-> | ->].
  - intros event f w m n Hf Hm Hn Hmn Hok w'. subst w'.
    assert (Js.ge (retryCount w (identity f)) (MAX_RETRIES env) = true) as Hge.
    { rewrite Hm, Hn. simpl. by apply Z.leb_le. }
    pose proof (plan_over_budget env aws f w Hge) as Heq.
    rewrite Hn, published_unset in Heq by done.
    assert (Forall (λ c, is_publish c = false) (plan env aws f w)) as Hquiet.
    { rewrite Heq. destruct f; repeat constructor. }
    destruct (handler_inv env aws event f w Hf)
      as [(before & c & after & Hcs & Hb & Hc & Hrun & Hiss & Hput & Htab)
         |(Hall & Hrun & Hiss & item & Hlast & Hkey & Htab)].
    + rewrite Hcs in Hquiet. apply Forall_app in Hquiet as [_ Hq].
      apply Forall_inv in Hq. apply refused_rejects in Hc.
      rewrite Hok in Hc; done.
    + rewrite Heq, app_assoc, last_snoc in Hlast. injection Hlast as <-.
      split_and!; [by rewrite Hrun|by rewrite Hiss
                  |by rewrite Htab, lookup_insert_eq|].
      eexists.
      split_and!; [by rewrite Htab, lookup_insert_eq|apply incidentItem_key
                  |apply incidentItem_retries|apply incidentItem_lastAction
                  |apply incidentItem_status|].
      by rewrite Hiss, Heq, app_assoc, last_snoc.
Qed.

(** The same escalation in the deployment without a topic. *)
Lemma unset_topic_drops_escalation_witness :
  fst (handler Scenario.env_silent Scenario.healthy Scenario.build_b1
         (Scenario.retried "codebuild:b1" 2)) = Ok ()
  ∧ Forall (λ c, is_publish c = false)
      (issued Scenario.env_silent Scenario.healthy Scenario.build_b1
         (Scenario.retried "codebuild:b1" 2)).
Proof.
  assert (env_TOPIC_ARN Scenario.env_silent = None
          ∨ env_TOPIC_ARN Scenario.env_silent = Some "") as Hunset
    by (left; reflexivity).
  pose proof (proj2 (unset_topic_drops_escalation Scenario.env_silent
                       Scenario.healthy Hunset)
                Scenario.build_b1 Scenario.b1
                (Scenario.retried "codebuild:b1" 2) 2 2) as H.
  refine ((λ H', conj (proj1 H') (proj1 (proj2 H'))) (H _ _ _ _ _)).
  - vm_compute. reflexivity.
  - vm_compute. reflexivity.
  - vm_compute. reflexivity.
  - lia.
  - intros c _. reflexivity.
Defined.

(** An invocation at the budget, with the services answering. *)
Lemma over_budget_run env aws event f w (m n : Z) :
  recognise event = Some f →
  MAX_RETRIES env = Js.Int m →
  retryCount w (identity f) = Js.Int n →
  m ≤ n →
  answering aws →
  let terminal :=
    incidentItem (identity f) (Js.Int n) "GAVE_UP" "UNHEALED" (now w) in
  fst (handler env aws event w) = Ok ()
  ∧ trace (snd (handler env aws event w)) =
      trace w ++ lookups env f ++ published env (message aws f (Js.Int n))
        ++ [PutItem (env_TABLE env) terminal]
  ∧ table (snd (handler env aws event w)) = <[identity f := terminal]> (table w).
Proof.
  intros Hf Hm Hn Hmn Ha terminal.
  assert (Js.ge (retryCount w (identity f)) (MAX_RETRIES env) = true) as Hge.
  { rewrite Hm, Hn. simpl. by apply Z.leb_le. }
  pose proof (plan_over_budget env aws f w Hge) as Heq. rewrite Hn in Heq.
  destruct (handler_inv env aws event f w Hf)
    as [(before & c & after & Hcs & Hb & Hc & Hrun & Hiss & Hput & Htab)
       |(Hall & Hrun & Hiss & item & Hlast & Hkey & Htab)].
  - pose proof (answering_refused aws [c] Ha) as Hno.
    apply Forall_inv in Hno. congruence.
  - rewrite Heq, !app_assoc, last_snoc in Hlast. injection Hlast as <-.
    split_and!; [by rewrite Hrun| |done].
    rewrite Hrun. simpl. by rewrite trace_fulfil, Heq.
Qed.

Lemma count_app kind cs1 cs2 :
  count kind (cs1 ++ cs2) = (count kind cs1 + count kind cs2)%nat.
Proof. unfold count. by rewrite List.filter_app, length_app. Qed.

Lemma count_none kind cs :
  Forall (λ c, kind c = false) cs → count kind cs = 0%nat.
Proof.
  unfold count. induction 1 as [|c cs Hc _ IH]; [done|]. simpl. by rewrite Hc.
Qed.

Lemma process_cons env d ds w :
  process env (d :: ds) w = process env ds (deliver env w d).
Proof. reflexivity. Qed.

(** C7. Every further event for an identity whose stored count has reached
    the budget escalates again: each one publishes a notification and
    rewrites the terminal record, whatever status is stored, since only the
    count is compared with the budget. *)
Theorem terminal_identity_escalates_again env id (m n : Z) arn ds w :
  MAX_RETRIES env = Js.Int m →
  env_TOPIC_ARN env = Some arn →
  arn ≠ "" →
  retryCount w id = Js.Int n →
  m ≤ n →
  Forall (λ d, answering d.1 ∧ ∃ f, recognise d.2 = Some f ∧ identity f = id) ds →
  let w' := process env ds w in
  count is_publish (trace w') = (count is_publish (trace w) + length ds)%nat
  ∧ count is_putItem (trace w') = (count is_putItem (trace w) + length ds)%nat
  ∧ count is_remediation (trace w') = count is_remediation (trace w)
  ∧ retryCount w' id = Js.Int n
  ∧ (ds ≠ [] →
     ∃ item, table w' !! id = Some item
             ∧ item !! "status" = Some (AttrS "UNHEALED")
             ∧ item !! "lastAction" = Some (AttrS "GAVE_UP")).
Proof.
  intros Hm Harn Hne Hn Hmn Hds. revert w Hn.
  induction Hds as [|[aws event] ds (Ha & f & Hf & Hid) _ IH]; intros w Hn w'.
  { subst w'. simpl. rewrite !Nat.add_0_r. done. }
  subst w'. rewrite process_cons. simpl in Ha, Hf.
  set (w1 := deliver env w (aws, event)).
  rewrite <- Hid in Hn.
  destruct (over_budget_run env aws event f w m n Hf Hm Hn Hmn Ha)
    as (_ & Htrace & Htab).
  change (snd (handler env aws event w)) with w1 in Htrace, Htab.
  assert (retryCount w1 id = Js.Int n) as Hn1.
  { rewrite <- Hid.
    rewrite (retryCount_table (store (identity f)
               (incidentItem (identity f) (Js.Int n) "GAVE_UP" "UNHEALED" (now w))
               w)) by exact Htab.
    apply retryCount_store. }
  destruct (IH w1 Hn1) as (Hpub & Hput & Hrem & Hcount & Hitem).
  assert (published env (message aws f (Js.Int n))
          = [Publish arn (message aws f (Js.Int n))]) as Hp.
  { unfold published. rewrite Harn. by destruct arn. }
  rewrite Hp in Htrace.
  assert (count is_publish (trace w1) = S (count is_publish (trace w))) as H1.
  { rewrite Htrace, !count_app, (count_none is_publish (lookups env f))
      by (destruct f; repeat constructor).
    unfold count. simpl. lia. }
  assert (count is_putItem (trace w1) = S (count is_putItem (trace w))) as H2.
  { rewrite Htrace, !count_app, (count_none is_putItem (lookups env f))
      by (destruct f; repeat constructor).
    unfold count. simpl. lia. }
  assert (count is_remediation (trace w1) = count is_remediation (trace w)) as H3.
  { rewrite Htrace, !count_app, (count_none is_remediation (lookups env f))
      by (destruct f; repeat constructor).
    unfold count. simpl. lia. }
  split_and!.
  - rewrite Hpub, H1. simpl. lia.
  - rewrite Hput, H2. simpl. lia.
  - by rewrite Hrem, H3.
  - done.
  - intros _. destruct ds as [|d ds'].
    + simpl. fold w1. rewrite Htab, Hid, lookup_insert_eq. eexists. split; [done|].
      by rewrite incidentItem_status, incidentItem_lastAction.
    + by apply Hitem.
Qed.

(** Two more failures of b1 after the budget is spent: two notifications. *)
Lemma terminal_identity_escalates_again_witness :
  count is_publish
    (trace (process Scenario.env
              [(Scenario.healthy, Scenario.build_b1);
               (Scenario.healthy, Scenario.build_b1)]
              (Scenario.retried "codebuild:b1" 2))) = 2%nat.
Proof.
  refine (proj1 (terminal_identity_escalates_again Scenario.env "codebuild:b1"
                   2 2 "arn:aws:sns:eu-west-1:123456789012:SelfHealingAlerts"
                   [(Scenario.healthy, Scenario.build_b1);
                    (Scenario.healthy, Scenario.build_b1)]
                   (Scenario.retried "codebuild:b1" 2) _ _ _ _ _ _)).
  - vm_compute. reflexivity.
  - reflexivity.
  - discriminate.
  - vm_compute. reflexivity.
  - lia.
  - repeat constructor; try (intros c; reflexivity);
      exists Scenario.b1; split; vm_compute; reflexivity.
Defined.

(** ** Remediation *)

(** C3. When CodeBuild or CodePipeline rejects a request of the playbook
    (timeout bump, re-trigger or stage retry), the invocation ends with that
    rejection, nothing is written to the table, and every incident's retry
    count reads as before, so a redelivered event meets the same count. *)
Theorem failed_remediation_leaves_store env aws event w c :
  c ∈ issued env aws event w →
  is_executor c = true →
  rejects aws c = true →
  let w' := snd (handler env aws event w) in
  fst (handler env aws event w) = Throw c
  ∧ table w' = table w
  ∧ Forall (λ c, is_putItem c = false) (issued env aws event w)
  ∧ ∀ id, retryCount w' id = retryCount w id.
Proof.
  intros Hin Hex Hrej w'. subst w'.
  assert (refused aws c = true) as Href by (by rewrite refused_executor).
  destruct (recognise event) as [f|] eqn:Hf.
  2: { apply (handler_unrecognised env aws event w) in Hf as [_ Hiss].
       rewrite Hiss in Hin. by apply elem_of_nil in Hin. }
  destruct (handler_inv env aws event f w Hf)
    as [(before & c' & after & Hcs & Hb & Hc & Hrun & Hiss & Hput & Htab)
       |(Hall & Hrun & Hiss & _)].
  - rewrite Hiss in Hin. apply elem_of_app in Hin as [Hin|Hin].
    + rewrite Forall_forall in Hb. specialize (Hb c Hin). congruence.
    + apply list_elem_of_singleton in Hin as ->.
      split_and!; [by rewrite Hrun|done| |].
      * rewrite Hiss. apply Forall_app. split; [done|].
        constructor; [by destruct c'|done].
      * intros id. by apply retryCount_table.
  - rewrite Hiss in Hin. rewrite Forall_forall in Hall.
    specialize (Hall c Hin). congruence.
Qed.

(** CodeBuild refuses to start the build of b1. *)
Lemma failed_remediation_leaves_store_witness :
  retryCount
    (snd (handler Scenario.env Scenario.outage Scenario.build_b1 Scenario.fresh))
    "codebuild:b1" = Js.Int 0.
Proof.
  refine (proj2 (proj2 (proj2
            (failed_remediation_leaves_store Scenario.env Scenario.outage
               Scenario.build_b1 Scenario.fresh
               (StartBuild (Some "demo") [("CACHE_BUSTER", "1700000000000")])
               _ _ _))) "codebuild:b1").
  - vm_compute. apply list_elem_of_In. simpl. tauto.
  - reflexivity.
  - reflexivity.
Defined.

(** An invocation below the budget, with the services answering. *)
Lemma below_budget_run env aws event f w (m n : Z) :
  recognise event = Some f →
  MAX_RETRIES env = Js.Int m →
  retryCount w (identity f) = Js.Int n →
  n < m →
  answering aws →
  let item :=
    incidentItem (identity f) (Js.Int (n + 1)) (chosenAction aws f) "RETRYING"
      (now w + delay aws f) in
  fst (handler env aws event w) = Ok ()
  ∧ issued env aws event w =
      lookups env f ++ playbook aws f (now w) ++ [PutItem (env_TABLE env) item]
  ∧ table (snd (handler env aws event w)) = <[identity f := item]> (table w).
Proof.
  intros Hf Hm Hn Hmn Ha item.
  assert (Js.ge (retryCount w (identity f)) (MAX_RETRIES env) = false) as Hge.
  { rewrite Hm, Hn. simpl. by apply Z.leb_gt. }
  pose proof (plan_below_budget env aws f w Hge) as Heq. rewrite Hn in Heq.
  destruct (handler_inv env aws event f w Hf)
    as [(before & c & after & Hcs & Hb & Hc & Hrun & Hiss & Hput & Htab)
       |(Hall & Hrun & Hiss & item' & Hlast & Hkey & Htab)].
  - pose proof (answering_refused aws [c] Ha) as Hno.
    apply Forall_inv in Hno. congruence.
  - rewrite Heq, !app_assoc, last_snoc in Hlast. injection Hlast as <-.
    split_and!; [by rewrite Hrun| |done].
    by rewrite Hiss, Heq.
Qed.

(** C4. Below the budget and with the playbook carried out, the handler
    stores for the incident the count read plus one, the chosen action as
    lastAction and the status RETRYING, for build and for stage failures
    alike. *)
Theorem remediation_persists_increment env aws event f w (m n : Z) :
  recognise event = Some f →
  MAX_RETRIES env = Js.Int m →
  retryCount w (identity f) = Js.Int n →
  n < m →
  answering aws →
  let w' := snd (handler env aws event w) in
  fst (handler env aws event w) = Ok ()
  ∧ retryCount w' (identity f) = Js.Int (n + 1)
  ∧ ∃ item,
      table w' !! identity f = Some item
      ∧ item !! "incidentId" = Some (AttrS (identity f))
      ∧ item !! "retries" = Some (AttrN (Js.toString (Js.Int (n + 1))))
      ∧ item !! "lastAction" = Some (AttrS (chosenAction aws f))
      ∧ item !! "status" = Some (AttrS "RETRYING")
      ∧ last (issued env aws event w) = Some (PutItem (env_TABLE env) item).
Proof.
  intros Hf Hm Hn Hmn Ha w'. subst w'.
  destruct (below_budget_run env aws event f w m n Hf Hm Hn Hmn Ha)
    as (Hok & Hiss & Htab).
  split_and!; [done| |].
  - rewrite (retryCount_table
               (store (identity f)
                  (incidentItem (identity f) (Js.Int (n + 1)) (chosenAction aws f)
                     "RETRYING" (now w + delay aws f)) w)) by exact Htab.
    apply retryCount_store.
  - eexists. rewrite Htab, lookup_insert_eq. split_and!; [done|..].
    + apply incidentItem_key.
    + apply incidentItem_retries.
    + apply incidentItem_lastAction.
    + apply incidentItem_status.
    + by rewrite Hiss, !app_assoc, last_snoc.
Qed.

(** The first failure of stage Build in execution e1. *)
Lemma remediation_persists_increment_witness :
  retryCount
    (snd (handler Scenario.env Scenario.healthy (Scenario.stage_event "p1")
            Scenario.fresh))
    (identity Scenario.p1_Build_e1) = Js.Int 1.
Proof.
  refine (proj1 (proj2
            (remediation_persists_increment Scenario.env Scenario.healthy
               (Scenario.stage_event "p1") Scenario.p1_Build_e1 Scenario.fresh
               2 0 _ _ _ _ _))).
  - vm_compute. reflexivity.
  - vm_compute. reflexivity.
  - vm_compute. reflexivity.
  - lia.
  - intros c. reflexivity.
Defined.

(** C6. A failed pipeline action below the budget is answered with
    RETRY_STAGE whatever else the event carries: the only remediation
    request is a retry of the failed actions of that stage of that pipeline
    execution, it is issued as soon as the count has been read, and
    RETRY_STAGE is what gets stored. *)
Theorem stage_failure_retries_failed_actions env aws event p s e w (m n : Z) :
  let f := StageFailure p s e in
  let retry := RetryStageExecution p e s "FAILED_ACTIONS" in
  recognise event = Some f →
  MAX_RETRIES env = Js.Int m →
  retryCount w (identity f) = Js.Int n →
  n < m →
  chosenAction aws f = "RETRY_STAGE"
  ∧ Forall (λ c, is_remediation c = true → c = retry) (issued env aws event w)
  ∧ (rejects aws (GetItem (env_TABLE env) (identity f)) = false →
     retry ∈ issued env aws event w)
  ∧ (answering aws →
     issued env aws event w =
       [GetItem (env_TABLE env) (identity f); retry;
        PutItem (env_TABLE env)
          (incidentItem (identity f) (Js.Int (n + 1)) "RETRY_STAGE" "RETRYING"
             (now w))]).
Proof.
  intros f retry Hf Hm Hn Hmn.
  assert (Js.ge (retryCount w (identity f)) (MAX_RETRIES env) = false) as Hge.
  { rewrite Hm, Hn. simpl. by apply Z.leb_gt. }
  pose proof (plan_below_budget env aws f w Hge) as Heq. rewrite Hn in Heq.
  change (delay aws f) with 0 in Heq. rewrite Z.add_0_r in Heq.
  change (lookups env f) with [GetItem (env_TABLE env) (identity f)] in Heq.
  change (playbook aws f (now w)) with [retry] in Heq.
  change (chosenAction aws f) with "RETRY_STAGE" in Heq.
  cbn [app] in Heq.
  assert (Forall (λ c, is_remediation c = true → c = retry) (plan env aws f w))
    as Hplan by (rewrite Heq; repeat constructor; done).
  split; [done|].
  destruct (handler_inv env aws event f w Hf)
    as [(before & c & after & Hcs & Hb & Hc & Hrun & Hiss & Hput & Htab)
       |(Hall & Hrun & Hiss & _)].
  - split_and!.
    + rewrite Hiss. eapply Forall_stopped. by rewrite <- Hcs.
    + intros Hget. rewrite Hiss. rewrite Heq in Hcs.
      destruct before as [|x [|y [|z before]]]; simplify_eq/=.
      * congruence.
      * set_solver.
      * set_solver.
      * by destruct before.
    + intros Ha. pose proof (answering_refused aws [c] Ha) as Hno.
      apply Forall_inv in Hno. congruence.
  - rewrite Hiss. split_and!; [done| |by rewrite Heq].
    intros _. rewrite Heq. set_solver.
Qed.

(** The stage retry is attempted even when CodePipeline then refuses it. *)
Lemma stage_failure_retries_failed_actions_witness :
  RetryStageExecution (Some "p1") (Some "e1") (Some "Build") "FAILED_ACTIONS"
  ∈ issued Scenario.env Scenario.outage (Scenario.stage_event "p1") Scenario.fresh.
Proof.
  refine (proj1 (proj2 (proj2
            (stage_failure_retries_failed_actions Scenario.env Scenario.outage
               (Scenario.stage_event "p1") (Some "p1") (Some "Build") (Some "e1")
               Scenario.fresh 2 0 _ _ _ _))) _).
  - vm_compute. reflexivity.
  - vm_compute. reflexivity.
  - vm_compute. reflexivity.
  - lia.
  - reflexivity.
Defined.

(** ** The retry count over time *)

(** The only [PutItem] of a plan stores the count read, at the budget, or
    its successor, below it. *)
Lemma put_in_plan env aws f w t item :
  PutItem t item ∈ plan env aws f w →
  let r := retryCount w (identity f) in
  item !! "incidentId" = Some (AttrS (identity f))
  ∧ item !! "retries" =
      Some (AttrN (Js.toString
                     (if Js.ge r (MAX_RETRIES env) then r else Js.succ r))).
Proof.
  intros Hin r.
  destruct (plan_shape env aws f w)
    as (init & r' & a & st & t' & Hplan & Hinit & Hcase).
  rewrite Hplan in Hin. apply elem_of_app in Hin as [Hin|Hin].
  { rewrite Forall_forall in Hinit. by specialize (Hinit _ Hin). }
  apply list_elem_of_singleton in Hin. injection Hin as Ht Hitem. subst t item.
  rewrite incidentItem_key, incidentItem_retries. fold r in Hcase.
  by destruct Hcase as [(-> & -> & _)|(-> & -> & _)].
Qed.

Lemma issued_in_plan env aws event f w c :
  recognise event = Some f →
  c ∈ issued env aws event w → c ∈ plan env aws f w.
Proof.
  intros Hf Hin.
  destruct (handler_inv env aws event f w Hf)
    as [(before & c' & after & Hcs & _ & _ & _ & Hiss & _)
       |(_ & _ & Hiss & _)]; rewrite Hiss in Hin; [|done].
  rewrite Hcs. apply elem_of_app.
  apply elem_of_app in Hin as [Hin|Hin%list_elem_of_singleton]; [by left|].
  right. apply elem_of_cons. by left.
Qed.

Lemma deliver_retryCount env d w id (n : Z) :
  retryCount w id = Js.Int n →
  retryCount (deliver env w d) id = Js.Int n
  ∨ retryCount (deliver env w d) id = Js.Int (n + 1).
Proof.
  intros Hn. destruct d as [aws event]. unfold deliver. cbn [fst snd].
  destruct (recognise event) as [f|] eqn:Hf.
  2: { apply (handler_unrecognised env aws event w) in Hf as [-> _]. by left. }
  destruct (handler_inv env aws event f w Hf)
    as [(_ & _ & _ & _ & _ & _ & _ & _ & _ & Htab)
       |(_ & _ & Hiss & item & Hlast & Hkey & Htab)].
  { left. by rewrite (retryCount_table _ _ _ Htab). }
  destruct (plan_shape env aws f w)
    as (init & r' & a & st & t & Hplan & _ & Hcase).
  rewrite Hplan, last_snoc in Hlast. injection Hlast as <-.
  rewrite (retryCount_table (store (identity f)
             (incidentItem (identity f) r' a st t) w)) by exact Htab.
  destruct (decide (identity f = id)) as [<-|Hne].
  - rewrite Hn in Hcase.
    destruct Hcase as [(_ & -> & _)|(_ & -> & _)];
      [left|right]; apply retryCount_store.
  - left. by rewrite retryCount_store_ne.
Qed.

Lemma process_retryCount env ds w id (n : Z) :
  retryCount w id = Js.Int n →
  ∃ n' : Z, retryCount (process env ds w) id = Js.Int n'
            ∧ n ≤ n' ≤ n + Z.of_nat (length ds).
Proof.
  revert w n. induction ds as [|d ds IH]; intros w n Hn.
  - exists n. simpl. split; [done|lia].
  - rewrite process_cons.
    destruct (deliver_retryCount env d w id n Hn) as [H1|H1];
      destruct (IH _ _ H1) as (n' & Hn' & Hle);
      exists n'; (split; [done|]); cbn [length]; lia.
Qed.

Lemma ge_Int (n m : Z) : Js.ge (Js.Int n) (Js.Int m) = negb (n <? m).
Proof. simpl. destruct (Z.leb_spec m n), (Z.ltb_spec n m); simpl; lia || done. Qed.

(** What a plan writes, for a count [n] and a budget [m]. *)
Lemma plan_writes env aws f w (m n : Z) :
  MAX_RETRIES env = Js.Int m →
  retryCount w (identity f) = Js.Int n →
  ∃ init action status t,
    plan env aws f w =
      init ++ [PutItem (env_TABLE env)
                 (incidentItem (identity f)
                    (Js.Int (if n <? m then n + 1 else n)) action status t)].
Proof.
  intros Hm Hn. unfold plan. rewrite Hn, Hm, ge_Int.
  destruct (n <? m); simpl; eexists _, _, _, _; by rewrite !app_assoc.
Qed.

(** C5. Processed one after the other, events never lower a stored retry
    count.  An invocation leaves each count as it was or one higher.  What
    it writes is the count it read (at the budget) or that count plus
    exactly one (below it): this holds of every write it issues, an
    invocation that completes has made that write as its last request and
    the count then reads so, services that answer let it complete, and one
    that does not complete leaves the table alone.  So the counts observed
    along any sequence of deliveries are non-decreasing. *)
Theorem retry_count_monotone env :
  (∀ d w id (n : Z),
     retryCount w id = Js.Int n →
     retryCount (deliver env w d) id = Js.Int n
     ∨ retryCount (deliver env w d) id = Js.Int (n + 1))
  ∧ (∀ aws event w t item,
       PutItem t item ∈ issued env aws event w →
       ∃ f, recognise event = Some f
            ∧ item !! "incidentId" = Some (AttrS (identity f))
            ∧ let r := retryCount w (identity f) in
              item !! "retries" =
                Some (AttrN (Js.toString
                               (if Js.ge r (MAX_RETRIES env) then r
                                else Js.succ r))))
  ∧ (∀ ds1 ds2 w id (n : Z),
       retryCount w id = Js.Int n →
       ∃ n1 n2 : Z,
         retryCount (process env ds1 w) id = Js.Int n1
         ∧ retryCount (process env (ds1 ++ ds2) w) id = Js.Int n2
         ∧ n ≤ n1 ≤ n2 ∧ n2 ≤ n + Z.of_nat (length (ds1 ++ ds2)))
  ∧ (∀ aws event f w t item (m n : Z),
       recognise event = Some f →
       MAX_RETRIES env = Js.Int m →
       retryCount w (identity f) = Js.Int n →
       PutItem t item ∈ issued env aws event w →
       item !! "retries" =
         Some (AttrN (Js.toString (Js.Int (if n <? m then n + 1 else n)))))
  ∧ (∀ aws event f w (m n : Z),
       recognise event = Some f →
       MAX_RETRIES env = Js.Int m →
       retryCount w (identity f) = Js.Int n →
       let w' := deliver env w (aws, event) in
       let written := if n <? m then n + 1 else n in
       (fst (handler env aws event w) = Ok () →
        retryCount w' (identity f) = Js.Int written
        ∧ ∃ item,
            last (issued env aws event w) = Some (PutItem (env_TABLE env) item)
            ∧ table w' !! identity f = Some item
            ∧ item !! "retries" = Some (AttrN (Js.toString (Js.Int written))))
       ∧ (answering aws → fst (handler env aws event w) = Ok ())
       ∧ (fst (handler env aws event w) ≠ Ok () → table w' = table w)).
Proof.
  split_and!; cycle 3.
  { intros aws event f w t item m n Hf Hm Hn Hin.
    apply (issued_in_plan _ _ _ _ _ _ Hf) in Hin.
    destruct (plan_writes env aws f w m n Hm Hn)
      as (init & action & status & t' & Hplan).
    destruct (plan_shape env aws f w) as (init' & ? & ? & ? & ? & Hplan' & Hinit & _).
    rewrite Hplan in Hplan'. apply app_inj_tail in Hplan' as [<- _].
    rewrite Hplan in Hin. apply elem_of_app in Hin as [Hin|Hin].
    { rewrite Forall_forall in Hinit. by specialize (Hinit _ Hin). }
    apply list_elem_of_singleton in Hin. injection Hin as _ ->.
    apply incidentItem_retries. }
  { intros aws event f w m n Hf Hm Hn w' written. subst w'.
    unfold deliver. cbn [fst snd].
    destruct (plan_writes env aws f w m n Hm Hn)
      as (init & action & status & t' & Hplan). fold written in Hplan.
    destruct (handler_inv env aws event f w Hf)
      as [(before & c & after & Hcs & Hb & Hc & Hrun & Hiss & Hput & Htab)
         |(Hall & Hrun & Hiss & item & Hlast & Hkey & Htab)].
    - split_and!.
      + rewrite Hrun. discriminate.
      + intros Ha. pose proof (answering_refused aws [c] Ha) as Hno.
        apply Forall_inv in Hno. congruence.
      + done.
    - rewrite Hplan, last_snoc in Hlast. injection Hlast as <-.
      split_and!.
      + intros _. split.
        * rewrite (retryCount_table
                     (store (identity f)
                        (incidentItem (identity f) (Js.Int written) action
                           status t') w)) by exact Htab.
          apply retryCount_store.
        * eexists. rewrite Hiss, Hplan, last_snoc, Htab, lookup_insert_eq.
          split_and!; [done|done|apply incidentItem_retries].
      + intros _. by rewrite Hrun.
      + rewrite Hrun. done. }
  - apply deliver_retryCount.
  - intros aws event w t item Hin.
    destruct (recognise event) as [f|] eqn:Hf.
    2: { apply (handler_unrecognised env aws event w) in Hf as [_ Hiss].
         rewrite Hiss in Hin. by apply elem_of_nil in Hin. }
    exists f. split; [done|].
    eapply put_in_plan, issued_in_plan; done.
  - intros ds1 ds2 w id n Hn.
    destruct (process_retryCount env ds1 w id n Hn) as (n1 & Hn1 & Hle1).
    destruct (process_retryCount env ds2 _ id n1 Hn1) as (n2 & Hn2 & Hle2).
    exists n1, n2. unfold process in *. rewrite fold_left_app, length_app.
    split_and!; [done|done|lia|lia|lia].
Qed.

(** Four deliveries for b1, one of them during an outage. *)
Lemma retry_count_monotone_witness :
  ∃ n1 n2 : Z,
    retryCount (process Scenario.env [(Scenario.healthy, Scenario.build_b1)]
                  Scenario.fresh) "codebuild:b1" = Js.Int n1
    ∧ retryCount
        (process Scenario.env
           ([(Scenario.healthy, Scenario.build_b1)]
            ++ [(Scenario.outage, Scenario.build_b1);
                (Scenario.healthy, Scenario.build_b1);
                (Scenario.healthy, Scenario.build_b1)])
           Scenario.fresh) "codebuild:b1" = Js.Int n2
    ∧ 0 ≤ n1 ≤ n2 ∧ n2 ≤ 0 + Z.of_nat 4.
Proof.
  refine (proj1 (proj2 (proj2 (retry_count_monotone Scenario.env)))
            [(Scenario.healthy, Scenario.build_b1)]
            [(Scenario.outage, Scenario.build_b1);
             (Scenario.healthy, Scenario.build_b1);
             (Scenario.healthy, Scenario.build_b1)]
            Scenario.fresh "codebuild:b1" 0 _).
  vm_compute. reflexivity.
Defined.

(** ** Incident identities *)

Lemma Contains_cons c s needle : Contains s needle → Contains (String c s) needle.
Proof. intros (pre & post & ->). by exists (String c pre), post. Qed.

(** A text is cut at its first colon in one way only. *)
Lemma cut_at_colon e1 e2 s1 s2 :
  ¬ Contains e1 ":" → ¬ Contains e2 ":" →
  e1 +:+ ":" +:+ s1 = e2 +:+ ":" +:+ s2 → e1 = e2 ∧ s1 = s2.
Proof.
  revert e2. induction e1 as [|c e1 IH]; intros [|c' e2] H1 H2 H.
  - by injection H.
  - injection H as <- _. destruct H2. by exists "", e2.
  - injection H as -> _. destruct H1. by exists "", e1.
  - injection H as <- H.
    destruct (IH e2) as [-> ->]; try done.
    + intros Hc. by apply H1, Contains_cons.
    + intros Hc. by apply H2, Contains_cons.
Qed.

Lemma plan_reads env aws f w :
  Forall (λ c, match c with GetItem _ k => k = identity f | _ => True end)
    (plan env aws f w).
Proof.
  unfold plan. rewrite Forall_app. split; [destruct f; repeat constructor|].
  destruct (Js.ge _ _); rewrite Forall_app; split; try (repeat constructor).
  - unfold published. destruct (env_TOPIC_ARN env) as [[|c s]|]; repeat constructor.
  - destruct f; simpl; repeat case_match; repeat constructor.
Qed.

Lemma issued_getItem env aws event f w t k :
  recognise event = Some f →
  GetItem t k ∈ issued env aws event w → k = identity f.
Proof.
  intros Hf Hin%(issued_in_plan _ _ _ f); [|done].
  pose proof (plan_reads env aws f w) as H. rewrite Forall_forall in H.
  exact (H _ Hin).
Qed.

(** C8 (counterexample).  The identity of a stage failure leaves the
    pipeline name out, so the same stage and execution id under
    two pipeline names share one incident (and one retry count); and an
    execution id with a colon can be read as another execution and stage. *)
Lemma identity_ignores_pipeline_name :
  recognise (Scenario.stage_event "p1")
    = Some (StageFailure (Some "p1") (Some "Build") (Some "e1"))
  ∧ recognise (Scenario.stage_event "p2")
    = Some (StageFailure (Some "p2") (Some "Build") (Some "e1"))
  ∧ identity (StageFailure (Some "p1") (Some "Build") (Some "e1"))
    = identity (StageFailure (Some "p2") (Some "Build") (Some "e1"))
  ∧ retryCount
      (process Scenario.env [(Scenario.healthy, Scenario.stage_event "p1")]
         Scenario.fresh)
      (identity (StageFailure (Some "p2") (Some "Build") (Some "e1"))) = Js.Int 1
  ∧ identity (StageFailure (Some "p1") (Some "c") (Some "a:b"))
    = identity (StageFailure (Some "p1") (Some "b:c") (Some "a"))
  ∧ ¬ (∀ p1 s1 e1 p2 s2 e2 : option string,
         (p1, e1, s1) ≠ (p2, e2, s2) →
         identity (StageFailure p1 s1 e1) ≠ identity (StageFailure p2 s2 e2)).
Proof.
  split_and!; try (vm_compute; reflexivity).
  intros H.
  apply (H (Some "p1") (Some "Build") (Some "e1")
           (Some "p2") (Some "Build") (Some "e1")); [discriminate|reflexivity].
Qed.

(** C8, amended.  The identity is a function of the failure, and it is the
    key of every read the invocation makes.  For a build it is determined
    by, and determines, the build id.  For a stage failure it is determined
    by the execution id and the stage name alone, whatever the pipeline
    name; it determines them when execution ids hold no colon.  Build and
    stage identities never coincide. *)
Theorem identity_determines_locus :
  (∀ env aws event f w t k,
     recognise event = Some f →
     GetItem t k ∈ issued env aws event w → k = identity f)
  ∧ (∀ b1 b2 : string,
       identity (BuildFailure (Some b1)) = identity (BuildFailure (Some b2))
       ↔ b1 = b2)
  ∧ (∀ p1 p2 s e,
       identity (StageFailure p1 s e) = identity (StageFailure p2 s e))
  ∧ (∀ p1 p2 (s1 s2 e1 e2 : string),
       ¬ Contains e1 ":" → ¬ Contains e2 ":" →
       identity (StageFailure p1 (Some s1) (Some e1))
       = identity (StageFailure p2 (Some s2) (Some e2))
       ↔ e1 = e2 ∧ s1 = s2)
  ∧ (∀ b p s e, identity (BuildFailure b) ≠ identity (StageFailure p s e)).
Proof.
  split_and!.
  - apply issued_getItem.
  - intros b1 b2. split; [|by intros ->].
    unfold identity, buildIncidentId. simpl. by intros ?%(inj _).
  - done.
  - intros p1 p2 s1 s2 e1 e2 H1 H2. split; [|by intros [-> ->]].
    unfold identity, stageIncidentId. simpl.
    intros H%(inj _). by apply cut_at_colon.
  - intros b p s e H. unfold identity, buildIncidentId, stageIncidentId in H.
    cbv [String.append] in H. discriminate H.
Qed.

(** Two stages of one execution have different identities. *)
Lemma identity_determines_locus_witness :
  identity (StageFailure (Some "p1") (Some "Build") (Some "e1"))
  = identity (StageFailure (Some "p2") (Some "Deploy") (Some "e1"))
  ↔ "e1" = "e1" ∧ "Build" = "Deploy".
Proof.
  refine (proj1 (proj2 (proj2 (proj2 identity_determines_locus)))
            (Some "p1") (Some "p2") "Build" "Deploy" "e1" "e1" _ _).
  - apply includes_false. reflexivity.
  - apply includes_false. reflexivity.
Defined.

(** ** The handler at work *)

Example parseInt_leading_sign : Js.parseInt "  -12px" = Js.Int (-12).
Proof. reflexivity. Qed.

Example parseInt_no_digit : Js.parseInt "abc" = Js.NaN.
Proof. reflexivity. Qed.

Example toString_negative : Js.toString (Js.Int (-35)) = "-35".
Proof. reflexivity. Qed.

Example toISOString_epoch : Js.toISOString 0 = "1970-01-01T00:00:00.000Z".
Proof. reflexivity. Qed.

Example toISOString_2023 : Js.toISOString 1700000000000 = "2023-11-14T22:13:20.000Z".
Proof. reflexivity. Qed.

Example MAX_RETRIES_default : MAX_RETRIES Scenario.env = Js.Int 2.
Proof. reflexivity. Qed.

(** Three deliveries for build b1 with a budget of two: two retries, then
    the escalation, and the count stays at two. *)
Example three_failures_of_b1 :
  let ds := [(Scenario.healthy, Scenario.build_b1);
             (Scenario.healthy, Scenario.build_b1);
             (Scenario.healthy, Scenario.build_b1)] in
  let w' := process Scenario.env ds Scenario.fresh in
  retryCount w' "codebuild:b1" = Js.Int 2
  ∧ (table w' !! "codebuild:b1") ≫= (.!! "status") = Some (AttrS "UNHEALED")
  ∧ List.filter is_publish (trace w') =
      [Publish "arn:aws:sns:eu-west-1:123456789012:SelfHealingAlerts"
         "❌ Build b1 (demo) failed after 2 retries"]
  ∧ count is_executor (trace w') = 2%nat.
Proof. vm_compute. done. Qed.

(** A failed stage of pipeline p1 is retried for (p1, e1, Build). *)
Example stage_of_p1_fails :
  issued Scenario.env Scenario.healthy (Scenario.stage_event "p1") Scenario.fresh
  = [GetItem (Some "SelfHealingIncidents") "codepipeline:e1:Build";
     RetryStageExecution (Some "p1") (Some "e1") (Some "Build") "FAILED_ACTIONS";
     PutItem (Some "SelfHealingIncidents")
       (incidentItem "codepipeline:e1:Build" (Js.Int 1) "RETRY_STAGE" "RETRYING"
          1700000000000)].
Proof. vm_compute. done. Qed.

(** During an outage nothing is stored, and the redelivered event is
    retried at count zero. *)
Example outage_then_redelivery :
  let w1 := deliver Scenario.env Scenario.fresh (Scenario.outage, Scenario.build_b1) in
  table w1 = ∅
  ∧ retryCount (deliver Scenario.env w1 (Scenario.healthy, Scenario.build_b1))
      "codebuild:b1" = Js.Int 1.
Proof. vm_compute. done. Qed.

(** * Further properties of the handler *)

(** ** Carrying out a plan *)

Lemma perform_all aws cs w :
  Forall (λ c, refused aws c = false) cs →
  perform aws cs w = (Ok (), fulfil cs w).
Proof.
  intros H. revert w. induction H as [|c cs Hc _ IH]; intros w; [done|].
  simpl. rewrite Hc. apply IH.
Qed.

Lemma perform_stop aws before c after w :
  Forall (λ c, refused aws c = false) before →
  refused aws c = true →
  perform aws (before ++ c :: after) w = (Throw c, record c (fulfil before w)).
Proof.
  intros H Hc. revert w. induction H as [|c' cs Hc' _ IH]; intros w; simpl.
  - by rewrite Hc.
  - rewrite Hc'. apply IH.
Qed.

Lemma handler_completes env aws event f w :
  recognise event = Some f →
  Forall (λ c, refused aws c = false) (plan env aws f w) →
  handler env aws event w = (Ok (), fulfil (plan env aws f w) w)
  ∧ issued env aws event w = plan env aws f w.
Proof.
  intros Hf Hall. unfold issued. rewrite handler_perform, Hf, perform_all by done.
  split; [done|]. simpl. by rewrite trace_fulfil, drop_app_length.
Qed.

Lemma handler_stops env aws event f w before c after :
  recognise event = Some f →
  plan env aws f w = before ++ c :: after →
  Forall (λ c, refused aws c = false) before →
  refused aws c = true →
  handler env aws event w = (Throw c, record c (fulfil before w))
  ∧ issued env aws event w = before ++ [c].
Proof.
  intros Hf Hplan Hb Hc. unfold issued.
  rewrite handler_perform, Hf, Hplan, perform_stop by done.
  split; [done|]. simpl. by rewrite trace_fulfil, <- app_assoc, drop_app_length.
Qed.

Lemma issued_trace env aws event w :
  trace (snd (handler env aws event w)) = trace w ++ issued env aws event w.
Proof.
  destruct (recognise event) as [f|] eqn:Hf.
  - destruct (handler_inv env aws event f w Hf)
      as [(before & c & after & _ & _ & _ & -> & -> & _)
         |(_ & -> & -> & _)]; simpl.
    + by rewrite trace_fulfil, app_assoc.
    + by rewrite trace_fulfil.
  - destruct (handler_unrecognised env aws event w Hf) as [-> ->].
    simpl. by rewrite app_nil_r.
Qed.

Lemma recognise_build event :
  let type := Js.or_else (detail_type event) "" in
  let detail := default ∅ (detail event) in
  Contains type "CodeBuild Build State Change" →
  detail !! "build-status" = Some "FAILED"
  ∨ detail !! "build-status" = Some "TIMED_OUT" →
  recognise event = Some (BuildFailure (detail !! "build-id")).
Proof.
  intros type detail Ht%includes_spec Hs. unfold recognise.
  fold type. fold detail. rewrite Ht.
  by destruct Hs as [-> | ->].
Qed.

(** ** Which events are handled *)

(** X1. An event that is neither a failed or timed-out CodeBuild build nor
    a failed CodePipeline action is ignored: the handler issues no request
    and leaves the table, the clock and the trace as they are. *)
Theorem unrecognised_event_is_ignored env aws event w :
  let type := Js.or_else (detail_type event) "" in
  let detail := default ∅ (detail event) in
  (¬ Contains type "CodeBuild Build State Change"
   ∨ (detail !! "build-status" ≠ Some "FAILED"
      ∧ detail !! "build-status" ≠ Some "TIMED_OUT")) →
  (¬ Contains type "CodePipeline Action Execution State Change"
   ∨ detail !! "state" ≠ Some "FAILED") →
  handler env aws event w = (Ok (), w).
Proof.
  intros type detail Hbuild Hstage. unfold handler. fold type. fold detail.
  assert (Js.includes type "CodeBuild Build State Change"
          && (bool_decide (detail !! "build-status" = Some "FAILED")
              || bool_decide (detail !! "build-status" = Some "TIMED_OUT"))
          = false) as ->.
  { destruct Hbuild as [H%includes_false|[H1 H2]].
    - by rewrite H.
    - rewrite !bool_decide_eq_false_2 by done. apply andb_false_r. }
  destruct Hstage as [H%includes_false|H].
  - by rewrite H.
  - rewrite bool_decide_eq_false_2 by done. by destruct (Js.includes _ _).
Qed.

(** A build that succeeded. *)
Lemma unrecognised_event_is_ignored_witness :
  handler Scenario.env Scenario.outage Cases.build_succeeded Scenario.fresh
  = (Ok (), Scenario.fresh).
Proof.
  refine (unrecognised_event_is_ignored Scenario.env Scenario.outage
            Cases.build_succeeded Scenario.fresh _ _).
  - right. split; vm_compute; discriminate.
  - left. apply includes_false. reflexivity.
Defined.

(** X2. Of a build event the handler reads the build id and nothing else
    once the guard is passed: two events that pass the build guard with the
    same build id are handled alike, whether the status is FAILED or
    TIMED_OUT and whatever else they carry. *)
Theorem build_events_differ_by_build_id_only env aws event1 event2 w :
  let type1 := Js.or_else (detail_type event1) "" in
  let type2 := Js.or_else (detail_type event2) "" in
  let detail1 := default ∅ (detail event1) in
  let detail2 := default ∅ (detail event2) in
  Contains type1 "CodeBuild Build State Change" →
  Contains type2 "CodeBuild Build State Change" →
  detail1 !! "build-status" = Some "FAILED"
  ∨ detail1 !! "build-status" = Some "TIMED_OUT" →
  detail2 !! "build-status" = Some "FAILED"
  ∨ detail2 !! "build-status" = Some "TIMED_OUT" →
  detail1 !! "build-id" = detail2 !! "build-id" →
  handler env aws event1 w = handler env aws event2 w.
Proof.
  intros type1 type2 detail1 detail2 H1 H2 Hs1 Hs2 Hid.
  rewrite !handler_dispatch.
  rewrite (recognise_build event1), (recognise_build event2) by done.
  fold detail1. fold detail2. by rewrite Hid.
Qed.

(** Build b1 reported FAILED and reported TIMED_OUT. *)
Lemma build_events_differ_by_build_id_only_witness :
  handler Scenario.env Scenario.healthy Scenario.build_b1 Scenario.fresh
  = handler Scenario.env Scenario.healthy Cases.build_b1_timed_out Scenario.fresh.
Proof.
  refine (build_events_differ_by_build_id_only Scenario.env Scenario.healthy
            Scenario.build_b1 Cases.build_b1_timed_out Scenario.fresh
            _ _ _ _ _).
  - apply includes_spec. reflexivity.
  - apply includes_spec. reflexivity.
  - left. vm_compute. reflexivity.
  - right. vm_compute. reflexivity.
  - vm_compute. reflexivity.
Defined.

Lemma build_plan_head env aws b w :
  ∃ rest, plan env aws (BuildFailure b) w = BatchGetBuilds [b] :: rest.
Proof. unfold plan, lookups. by eexists. Qed.

Lemma build_plan_no_stage_retry env aws b w p e s mode :
  RetryStageExecution p e s mode ∉ plan env aws (BuildFailure b) w.
Proof.
  unfold plan, lookups, published, playbook.
  rewrite !elem_of_app, !elem_of_cons.
  destruct (Js.ge _ _); [destruct (env_TOPIC_ARN env) as [[|c t]|]|];
    repeat case_match;
    rewrite ?elem_of_app, ?elem_of_cons, ?elem_of_nil; intuition discriminate.
Qed.

(** X3. The build branch returns from the handler: an event that passes the
    build guard is handled as a build failure even when it would pass the
    pipeline guard too.  Its first request describes the build, and no
    stage retry is issued. *)
Theorem build_guard_shadows_pipeline_guard env aws event w :
  let type := Js.or_else (detail_type event) "" in
  let detail := default ∅ (detail event) in
  Contains type "CodeBuild Build State Change" →
  detail !! "build-status" = Some "FAILED"
  ∨ detail !! "build-status" = Some "TIMED_OUT" →
  head (issued env aws event w) = Some (BatchGetBuilds [detail !! "build-id"])
  ∧ ∀ p e s mode, RetryStageExecution p e s mode ∉ issued env aws event w.
Proof.
  intros type detail Ht Hs.
  pose proof (recognise_build event Ht Hs) as Hf. fold detail in Hf.
  destruct (build_plan_head env aws (detail !! "build-id") w) as [rest Hrest].
  split.
  - destruct (handler_inv env aws event _ w Hf)
      as [(before & c & after & Hcs & _ & _ & _ & -> & _)
         |(_ & _ & -> & _)].
    + rewrite Hrest in Hcs. by destruct before; simplify_eq/=.
    + by rewrite Hrest.
  - intros p e s mode Hin. apply (issued_in_plan _ _ _ _ _ _ Hf) in Hin.
    by apply build_plan_no_stage_retry in Hin.
Qed.

(** An event that names both kinds and reports both as failed. *)
Lemma build_guard_shadows_pipeline_guard_witness :
  head (issued Scenario.env Scenario.healthy Cases.both_kinds Scenario.fresh)
  = Some (BatchGetBuilds [Some "b1"]).
Proof.
  refine (proj1 (build_guard_shadows_pipeline_guard Scenario.env Scenario.healthy
                   Cases.both_kinds Scenario.fresh _ _)).
  - apply includes_spec. reflexivity.
  - left. vm_compute. reflexivity.
Defined.

(** ** The incident store *)

(** X4. [getRetries] answers zero when nothing is stored for the incident,
    and also when the stored item has no [retries] attribute, has one that
    is not a number attribute, or has an empty number; it only reads. *)
Theorem getRetries_defaults_to_zero env aws id w :
  rejects aws (GetItem (env_TABLE env) id) = false →
  table w !! id = None
  ∨ (∃ item, table w !! id = Some item
             ∧ (item !! "retries" = None
                ∨ (∃ s, item !! "retries" = Some (AttrS s))
                ∨ item !! "retries" = Some (AttrN ""))) →
  getRetries env aws id w = (Ok (Js.Int 0), record (GetItem (env_TABLE env) id) w).
Proof.
  intros Hok Hcase. rewrite getRetries_run, Hok. f_equal. f_equal.
  unfold retryCount.
  destruct Hcase as [->|(item & -> & [->|[[s ->]| ->]])]; done.
Qed.

(** The first read for build b1. *)
Lemma getRetries_defaults_to_zero_witness :
  fst (getRetries Scenario.env Scenario.healthy "codebuild:b1" Scenario.fresh)
  = Ok (Js.Int 0).
Proof.
  refine (f_equal fst
            (getRetries_defaults_to_zero Scenario.env Scenario.healthy
               "codebuild:b1" Scenario.fresh _ _)).
  - reflexivity.
  - left. reflexivity.
Defined.

(** X5. What [saveIncident] stores, [getRetries] reads back: after a save
    of count [n] for an incident, whatever was stored before, the count
    read for it is [n]; the counts of the other incidents are as they
    were, and reading changes nothing. *)
Theorem saveIncident_then_getRetries env aws aws' id (n : Z) action status w :
  rejects aws
    (PutItem (env_TABLE env) (incidentItem id (Js.Int n) action status (now w)))
  = false →
  rejects aws' (GetItem (env_TABLE env) id) = false →
  let w1 := snd (saveIncident env aws id (Js.Int n) action status w) in
  fst (saveIncident env aws id (Js.Int n) action status w) = Ok ()
  ∧ fst (getRetries env aws' id w1) = Ok (Js.Int n)
  ∧ table (snd (getRetries env aws' id w1)) = table w1
  ∧ ∀ id', id' ≠ id → table w1 !! id' = table w !! id'.
Proof.
  intros Hput Hget w1. subst w1.
  rewrite saveIncident_run. cbv zeta. rewrite Hput. cbn [fst snd].
  rewrite getRetries_run, Hget. cbn [fst snd]. split_and!; [done| |done|].
  - f_equal. apply retryCount_store.
  - intros id' Hne. simpl. by rewrite lookup_insert_ne.
Qed.

(** Saving count 7 over the count 2 of build b1. *)
Lemma saveIncident_then_getRetries_witness :
  fst (getRetries Scenario.env Scenario.healthy "codebuild:b1"
         (snd (saveIncident Scenario.env Scenario.healthy "codebuild:b1"
                 (Js.Int 7) "RETRY" "RETRYING"
                 (Scenario.retried "codebuild:b1" 2))))
  = Ok (Js.Int 7).
Proof.
  refine (proj1 (proj2
            (saveIncident_then_getRetries Scenario.env Scenario.healthy
               Scenario.healthy "codebuild:b1" 7 "RETRY" "RETRYING"
               (Scenario.retried "codebuild:b1" 2) _ _))).
  - reflexivity.
  - reflexivity.
Defined.

(** X6. An invocation writes at most the item of its own incident: every
    other item of the table is left as it was, and no item is ever
    removed. *)
Theorem handler_touches_only_its_incident env aws event w :
  let w' := snd (handler env aws event w) in
  (∀ id, (∀ f, recognise event = Some f → identity f ≠ id) →
         table w' !! id = table w !! id)
  ∧ (∀ id, is_Some (table w !! id) → is_Some (table w' !! id)).
Proof.
  intros w'. subst w'.
  destruct (recognise event) as [f|] eqn:Hf.
  2: { destruct (handler_unrecognised env aws event w Hf) as [-> _]. done. }
  destruct (handler_inv env aws event f w Hf)
    as [(_ & _ & _ & _ & _ & _ & _ & _ & _ & ->)
       |(_ & _ & _ & item & _ & _ & ->)]; [done|].
  split.
  - intros id Hne. rewrite lookup_insert_ne; [done|]. by apply Hne.
  - intros id Hsome. destruct (decide (identity f = id)) as [<-|Hne].
    + by rewrite lookup_insert_eq.
    + by rewrite lookup_insert_ne.
Qed.

(** An item stored for a stage is untouched by a failure of build b1. *)
Lemma handler_touches_only_its_incident_witness :
  table (snd (handler Scenario.env Scenario.healthy Scenario.build_b1
                (Scenario.retried "codepipeline:e1:Build" 1)))
    !! "codepipeline:e1:Build"
  = table (Scenario.retried "codepipeline:e1:Build" 1) !! "codepipeline:e1:Build".
Proof.
  refine (proj1 (handler_touches_only_its_incident Scenario.env Scenario.healthy
                   Scenario.build_b1 (Scenario.retried "codepipeline:e1:Build" 1))
            "codepipeline:e1:Build" _).
  intros f Hf. vm_compute in Hf. injection Hf as <-. vm_compute. discriminate.
Defined.

(** ** Rejected requests *)

Lemma refused_not_timer aws c :
  rejects aws c = true → (∀ ms, c ≠ SetTimeout ms) → refused aws c = true.
Proof. intros Hr Hc. destruct c; try done. by destruct (Hc ms). Qed.

(** X7. No rejection is caught: whichever request a service rejects, the
    invocation ends with that rejection, the request is the last one
    issued, and the table is as it was. *)
Theorem rejected_request_ends_invocation env aws event w c :
  c ∈ issued env aws event w →
  rejects aws c = true →
  (∀ ms, c ≠ SetTimeout ms) →
  fst (handler env aws event w) = Throw c
  ∧ last (issued env aws event w) = Some c
  ∧ table (snd (handler env aws event w)) = table w.
Proof.
  intros Hin Hrej Htimer.
  pose proof (refused_not_timer aws c Hrej Htimer) as Href.
  destruct (recognise event) as [f|] eqn:Hf.
  2: { apply (handler_unrecognised env aws event w) in Hf as [_ Hiss].
       rewrite Hiss in Hin. by apply elem_of_nil in Hin. }
  destruct (handler_inv env aws event f w Hf)
    as [(before & c' & after & Hcs & Hb & Hc & Hrun & Hiss & Hput & Htab)
       |(Hall & Hrun & Hiss & _)].
  - rewrite Hiss in Hin. apply elem_of_app in Hin as [Hin|Hin].
    + rewrite Forall_forall in Hb. specialize (Hb c Hin). congruence.
    + apply list_elem_of_singleton in Hin as ->.
      split_and!; [by rewrite Hrun|by rewrite Hiss, last_snoc|done].
  - rewrite Hiss in Hin. rewrite Forall_forall in Hall.
    specialize (Hall c Hin). congruence.
Qed.

(** DynamoDB refuses the write that would record the first retry. *)
Lemma rejected_request_ends_invocation_witness :
  table (snd (handler Scenario.env Cases.no_writes Scenario.build_b1
                Scenario.fresh)) = table Scenario.fresh.
Proof.
  refine (proj2 (proj2
            (rejected_request_ends_invocation Scenario.env Cases.no_writes
               Scenario.build_b1 Scenario.fresh
               (PutItem (Some "SelfHealingIncidents")
                  (incidentItem "codebuild:b1" (Js.Int 1) "RETRY" "RETRYING"
                     1700000000000))
               _ _ _))).
  - vm_compute. apply list_elem_of_In. simpl. tauto.
  - reflexivity.
  - discriminate.
Defined.

Lemma plan_tail env aws f w :
  ∃ tail, plan env aws f w = lookups env f ++ tail
          ∧ Forall (λ c, is_lookup c = false) tail.
Proof.
  unfold plan. eexists. split; [done|].
  destruct (Js.ge _ _); rewrite Forall_app; split; try (repeat constructor).
  - unfold published. destruct (env_TOPIC_ARN env) as [[|c s]|]; repeat constructor.
  - destruct f; simpl; repeat case_match; repeat constructor.
Qed.

(** A list cut at an element of a kind that its second part lacks is cut
    within its first part. *)
Lemma cut_within {A : Type} (kind : A → bool) (before after l1 l2 : list A) c :
  before ++ c :: after = l1 ++ l2 →
  kind c = true →
  Forall (λ x, kind x = false) l2 →
  ∃ rest, l1 = before ++ c :: rest.
Proof.
  intros H Hc Hl2. revert l1 H.
  induction before as [|y before IH]; intros [|x l1] H; simplify_eq/=.
  - apply Forall_inv in Hl2. congruence.
  - by eexists.
  - apply Forall_cons in Hl2 as [_ Hl2].
    apply Forall_app in Hl2 as [_ Hl2]. apply Forall_inv in Hl2. congruence.
  - destruct (IH l1) as [rest ->]; [done|]. by eexists.
Qed.

(** X8. When CodeBuild cannot describe the build or DynamoDB cannot be
    read, the invocation ends with that rejection having issued nothing but
    reads: no notification, no remediation and no write. *)
Theorem failed_lookup_stops_before_any_action env aws event w c :
  c ∈ issued env aws event w →
  is_lookup c = true →
  rejects aws c = true →
  fst (handler env aws event w) = Throw c
  ∧ Forall (λ c, is_lookup c = true) (issued env aws event w)
  ∧ table (snd (handler env aws event w)) = table w.
Proof.
  intros Hin Hlook Hrej.
  assert (refused aws c = true) as Href by (by destruct c).
  destruct (recognise event) as [f|] eqn:Hf.
  2: { apply (handler_unrecognised env aws event w) in Hf as [_ Hiss].
       rewrite Hiss in Hin. by apply elem_of_nil in Hin. }
  destruct (handler_inv env aws event f w Hf)
    as [(before & c' & after & Hcs & Hb & Hc & Hrun & Hiss & Hput & Htab)
       |(Hall & Hrun & Hiss & _)].
  - rewrite Hiss in Hin. apply elem_of_app in Hin as [Hin|Hin].
    + rewrite Forall_forall in Hb. specialize (Hb c Hin). congruence.
    + apply list_elem_of_singleton in Hin as ->.
      split_and!; [by rewrite Hrun| |done].
      destruct (plan_tail env aws f w) as (tail & Hplan & Htail).
      rewrite Hplan in Hcs. symmetry in Hcs.
      destruct (cut_within is_lookup _ _ _ _ _ Hcs Hlook Htail) as [rest Hl].
      rewrite Hiss. eapply Forall_stopped. rewrite <- Hl.
      apply lookups_are_lookups.
  - rewrite Hiss in Hin. rewrite Forall_forall in Hall.
    specialize (Hall c Hin). congruence.
Qed.

(** DynamoDB cannot be read when build b1 fails. *)
Lemma failed_lookup_stops_before_any_action_witness :
  Forall (λ c, is_lookup c = true)
    (issued Scenario.env Cases.no_reads Scenario.build_b1 Scenario.fresh).
Proof.
  refine (proj1 (proj2
            (failed_lookup_stops_before_any_action Scenario.env Cases.no_reads
               Scenario.build_b1 Scenario.fresh
               (GetItem (Some "SelfHealingIncidents") "codebuild:b1") _ _ _))).
  - vm_compute. apply list_elem_of_In. simpl. tauto.
  - reflexivity.
  - reflexivity.
Defined.

(** X9. When SNS rejects the escalation message, the invocation ends with
    that rejection before the terminal record is written: no [PutItem] is
    issued and every retry count reads as before, so the next event for the
    incident escalates anew. *)
Theorem rejected_notification_leaves_no_terminal_record env aws event w c :
  c ∈ issued env aws event w →
  is_publish c = true →
  rejects aws c = true →
  let w' := snd (handler env aws event w) in
  fst (handler env aws event w) = Throw c
  ∧ Forall (λ c, is_putItem c = false) (issued env aws event w)
  ∧ ∀ id, retryCount w' id = retryCount w id.
Proof.
  intros Hin Hpub Hrej w'. subst w'.
  assert (refused aws c = true) as Href by (by destruct c).
  destruct (recognise event) as [f|] eqn:Hf.
  2: { apply (handler_unrecognised env aws event w) in Hf as [_ Hiss].
       rewrite Hiss in Hin. by apply elem_of_nil in Hin. }
  destruct (handler_inv env aws event f w Hf)
    as [(before & c' & after & Hcs & Hb & Hc & Hrun & Hiss & Hput & Htab)
       |(Hall & Hrun & Hiss & _)].
  - rewrite Hiss in Hin. apply elem_of_app in Hin as [Hin|Hin].
    + rewrite Forall_forall in Hb. specialize (Hb c Hin). congruence.
    + apply list_elem_of_singleton in Hin as ->.
      split_and!; [by rewrite Hrun| |].
      * rewrite Hiss. apply Forall_app. split; [done|].
        constructor; [by destruct c'|done].
      * intros id. by apply retryCount_table.
  - rewrite Hiss in Hin. rewrite Forall_forall in Hall.
    specialize (Hall c Hin). congruence.
Qed.

(** SNS is down when build b1 fails for the third time. *)
Lemma rejected_notification_leaves_no_terminal_record_witness :
  Forall (λ c, is_putItem c = false)
    (issued Scenario.env Cases.no_sns Scenario.build_b1
       (Scenario.retried "codebuild:b1" 2)).
Proof.
  refine (proj1 (proj2
            (rejected_notification_leaves_no_terminal_record Scenario.env
               Cases.no_sns Scenario.build_b1 (Scenario.retried "codebuild:b1" 2)
               (Publish "arn:aws:sns:eu-west-1:123456789012:SelfHealingAlerts"
                  "❌ Build b1 (demo) failed after 2 retries")
               _ _ _))).
  - vm_compute. apply list_elem_of_In. simpl. tauto.
  - reflexivity.
  - reflexivity.
Defined.

Lemma count_retrigger_playbook aws f t :
  count is_retrigger (playbook aws f t) = 1%nat.
Proof. destruct f; unfold playbook; by repeat case_match. Qed.

Lemma lookups_not_put env f : Forall (λ c, is_putItem c = false) (lookups env f).
Proof. destruct f; repeat constructor. Qed.

Lemma playbook_not_put aws f t : Forall (λ c, is_putItem c = false) (playbook aws f t).
Proof. destruct f; unfold playbook; repeat case_match; repeat constructor. Qed.

(** X10. When DynamoDB rejects the write that follows a remediation, the
    failed work has been started again all the same, once, and the retry
    count is as it was: that attempt is not counted. *)
Theorem rejected_write_forgets_the_retry env aws event f w (m n : Z) :
  recognise event = Some f →
  MAX_RETRIES env = Js.Int m →
  retryCount w (identity f) = Js.Int n →
  n < m →
  (∀ c, rejects aws c = is_putItem c) →
  let w' := snd (handler env aws event w) in
  (∃ c, fst (handler env aws event w) = Throw c ∧ is_putItem c = true)
  ∧ count is_retrigger (issued env aws event w) = 1%nat
  ∧ retryCount w' (identity f) = Js.Int n.
Proof.
  intros Hf Hm Hn Hmn Haws w'. subst w'.
  assert (Js.ge (retryCount w (identity f)) (MAX_RETRIES env) = false) as Hge.
  { rewrite Hm, Hn. simpl. by apply Z.leb_gt. }
  pose proof (plan_below_budget env aws f w Hge) as Heq.
  rewrite app_assoc in Heq.
  assert (Forall (λ c, is_putItem c = false)
            (lookups env f ++ playbook aws f (now w))) as Hnoput.
  { apply Forall_app. split; [apply lookups_not_put|apply playbook_not_put]. }
  assert (Forall (λ c, refused aws c = false)
            (lookups env f ++ playbook aws f (now w))) as Hb.
  { eapply Forall_impl; [exact Hnoput|]. intros c Hc. destruct c; simpl; try done;
      by rewrite Haws. }
  destruct (handler_stops env aws event f w _ _ _ Hf Heq Hb) as [Hrun Hiss].
  { simpl. by rewrite Haws. }
  split_and!.
  - eexists. by rewrite Hrun.
  - rewrite Hiss, !count_app, count_retrigger_playbook.
    rewrite (count_none is_retrigger (lookups env f))
      by (destruct f; repeat constructor).
    done.
  - rewrite Hrun. cbn [snd]. rewrite <- Hn. apply retryCount_table.
    simpl. by apply table_fulfil.
Qed.

(** Build b1 is started again although its retry cannot be recorded. *)
Lemma rejected_write_forgets_the_retry_witness :
  count is_retrigger
    (issued Scenario.env Cases.no_writes Scenario.build_b1 Scenario.fresh)
  = 1%nat.
Proof.
  refine (proj1 (proj2
            (rejected_write_forgets_the_retry Scenario.env Cases.no_writes
               Scenario.build_b1 Scenario.b1 Scenario.fresh 2 0 _ _ _ _ _))).
  - vm_compute. reflexivity.
  - vm_compute. reflexivity.
  - vm_compute. reflexivity.
  - lia.
  - intros c. reflexivity.
Defined.

(** ** The build playbooks *)

Lemma now_effect c w :
  now (effect c w) = now w + waited [c].
Proof.
  destruct c; simpl; try lia. destruct (_ !! _) as [[]|]; simpl; lia.
Qed.

Lemma waited_app cs1 cs2 : waited (cs1 ++ cs2) = waited cs1 + waited cs2.
Proof.
  induction cs1 as [|c cs1 IH]; simpl; [done|]. destruct c; lia.
Qed.

Lemma now_fulfil cs w : now (fulfil cs w) = now w + waited cs.
Proof.
  induction cs as [|c cs IH] using rev_ind; [simpl; lia|].
  rewrite fulfil_snoc, now_effect, waited_app. cbn [record now]. lia.
Qed.

(** An invocation for a build below the budget, with the services
    answering, in terms of the action chosen. *)
Lemma build_below_budget_run env aws event b w (m n : Z) action :
  recognise event = Some (BuildFailure b) →
  MAX_RETRIES env = Js.Int m →
  retryCount w (buildIncidentId b) = Js.Int n →
  n < m →
  answering aws →
  classify (JSON_stringify (describedBuild aws b)) = action →
  let name := describedBuild aws b ≫= projectName in
  let bump := String.eqb action "BUMP_TIMEOUT_AND_RETRY" in
  let backoff := String.eqb action "BACKOFF_AND_RETRY" in
  let t := now w + (if backoff then 30000 else 0) in
  issued env aws event w =
    [BatchGetBuilds [b]; GetItem (env_TABLE env) (buildIncidentId b)]
    ++ (if bump then [UpdateProject name 25] else [])
    ++ (if backoff then [SetTimeout 30000] else [])
    ++ [StartBuild name [("CACHE_BUSTER", Js.toString (Js.Int t))];
        PutItem (env_TABLE env)
          (incidentItem (buildIncidentId b) (Js.Int (n + 1)) action "RETRYING" t)]
  ∧ now (snd (handler env aws event w)) = t.
Proof.
  intros Hf Hm Hn Hmn Ha Hact name bump backoff t.
  assert (Js.ge (retryCount w (identity (BuildFailure b))) (MAX_RETRIES env)
          = false) as Hge.
  { cbn [identity]. rewrite Hm, Hn. simpl. by apply Z.leb_gt. }
  pose proof (plan_below_budget env aws _ w Hge) as Heq.
  cbn [identity] in Heq. rewrite Hn in Heq.
  unfold lookups, playbook, delay, project, chosenAction in Heq.
  cbn [identity Js.succ] in Heq. rewrite Hact in Heq.
  fold name bump backoff in Heq. fold t in Heq.
  destruct (handler_completes env aws event _ w Hf (answering_refused aws _ Ha))
    as [Hrun Hiss].
  rewrite Hiss, Hrun. cbn [snd]. rewrite now_fulfil, Heq.
  split.
  - by rewrite <- !app_assoc.
  - subst t. destruct bump, backoff; cbn; lia.
Qed.

(** X11. A build whose serialised description holds "TIMED_OUT" and no
    rate-limit phrase gets its project's timeout set to 25 minutes, then is
    started again at once with a cache buster; the count read plus one is
    stored with lastAction BUMP_TIMEOUT_AND_RETRY. *)
Theorem timed_out_build_gets_timeout_bump env aws event b w (m n : Z) :
  let blob := Js.or_else (JSON_stringify (describedBuild aws b)) "" in
  let name := describedBuild aws b ≫= projectName in
  let id := buildIncidentId b in
  recognise event = Some (BuildFailure b) →
  MAX_RETRIES env = Js.Int m →
  retryCount w id = Js.Int n →
  n < m →
  answering aws →
  Contains blob "TIMED_OUT" →
  ¬ ContainsAnyCase blob "rate exceeded" →
  issued env aws event w =
    [BatchGetBuilds [b]; GetItem (env_TABLE env) id; UpdateProject name 25;
     StartBuild name [("CACHE_BUSTER", Js.toString (Js.Int (now w)))];
     PutItem (env_TABLE env)
       (incidentItem id (Js.Int (n + 1)) "BUMP_TIMEOUT_AND_RETRY" "RETRYING"
          (now w))]
  ∧ now (snd (handler env aws event w)) = now w.
Proof.
  intros blob name id Hf Hm Hn Hmn Ha Ht%includes_spec Hr%includes_toLowerCase_false.
  assert (classify (JSON_stringify (describedBuild aws b))
          = "BUMP_TIMEOUT_AND_RETRY") as Hact.
  { rewrite classify_cases. fold blob. by rewrite Hr, Ht. }
  destruct (build_below_budget_run env aws event b w m n _ Hf Hm Hn Hmn Ha Hact)
    as [Hiss Hnow].
  rewrite Hiss, Hnow. cbn. by rewrite Z.add_0_r.
Qed.

(** The first failure of a build whose log reports a timeout. *)
Lemma timed_out_build_gets_timeout_bump_witness :
  now (snd (handler Scenario.env (Cases.reporting "phase BUILD: TIMED_OUT")
              Scenario.build_b1 Scenario.fresh)) = now Scenario.fresh.
Proof.
  refine (proj2
            (timed_out_build_gets_timeout_bump Scenario.env
               (Cases.reporting "phase BUILD: TIMED_OUT") Scenario.build_b1
               (Some "b1") Scenario.fresh 2 0 _ _ _ _ _ _ _)).
  - vm_compute. reflexivity.
  - vm_compute. reflexivity.
  - vm_compute. reflexivity.
  - lia.
  - intros c. reflexivity.
  - apply includes_spec. reflexivity.
  - apply includes_toLowerCase_false. reflexivity.
Defined.

(** X12. A build whose serialised description holds "rate exceeded" in any
    mix of cases is started again after a delay of 30 seconds and without
    a timeout bump, even when "TIMED_OUT" is present too; the cache buster
    and the stored lastUpdated are taken after the delay. *)
Theorem rate_limited_build_is_retried_after_backoff env aws event b w (m n : Z) :
  let blob := Js.or_else (JSON_stringify (describedBuild aws b)) "" in
  let name := describedBuild aws b ≫= projectName in
  let id := buildIncidentId b in
  recognise event = Some (BuildFailure b) →
  MAX_RETRIES env = Js.Int m →
  retryCount w id = Js.Int n →
  n < m →
  answering aws →
  ContainsAnyCase blob "rate exceeded" →
  issued env aws event w =
    [BatchGetBuilds [b]; GetItem (env_TABLE env) id; SetTimeout 30000;
     StartBuild name [("CACHE_BUSTER", Js.toString (Js.Int (now w + 30000)))];
     PutItem (env_TABLE env)
       (incidentItem id (Js.Int (n + 1)) "BACKOFF_AND_RETRY" "RETRYING"
          (now w + 30000))]
  ∧ now (snd (handler env aws event w)) = now w + 30000.
Proof.
  intros blob name id Hf Hm Hn Hmn Ha Hr%includes_toLowerCase_spec.
  assert (classify (JSON_stringify (describedBuild aws b))
          = "BACKOFF_AND_RETRY") as Hact.
  { rewrite classify_cases. fold blob. by rewrite Hr. }
  destruct (build_below_budget_run env aws event b w m n _ Hf Hm Hn Hmn Ha Hact)
    as [Hiss Hnow].
  rewrite Hiss, Hnow. by cbn.
Qed.

(** A throttled build whose log mentions a timeout as well. *)
Lemma rate_limited_build_is_retried_after_backoff_witness :
  now (snd (handler Scenario.env
              (Cases.reporting "TIMED_OUT after ThrottlingException: Rate exceeded")
              Scenario.build_b1 Scenario.fresh)) = now Scenario.fresh + 30000.
Proof.
  refine (proj2
            (rate_limited_build_is_retried_after_backoff Scenario.env
               (Cases.reporting "TIMED_OUT after ThrottlingException: Rate exceeded")
               Scenario.build_b1 (Some "b1") Scenario.fresh 2 0 _ _ _ _ _ _)).
  - vm_compute. reflexivity.
  - vm_compute. reflexivity.
  - vm_compute. reflexivity.
  - lia.
  - intros c. reflexivity.
  - apply includes_toLowerCase_spec. reflexivity.
Defined.

(** X13. A build whose serialised description holds neither marker is
    started again at once: no timeout bump and no delay, one [StartBuild]
    with a cache buster, and the count read plus one stored with lastAction
    RETRY. *)
Theorem unmarked_build_is_retried_at_once env aws event b w (m n : Z) :
  let blob := Js.or_else (JSON_stringify (describedBuild aws b)) "" in
  let name := describedBuild aws b ≫= projectName in
  let id := buildIncidentId b in
  recognise event = Some (BuildFailure b) →
  MAX_RETRIES env = Js.Int m →
  retryCount w id = Js.Int n →
  n < m →
  answering aws →
  ¬ Contains blob "TIMED_OUT" →
  ¬ ContainsAnyCase blob "rate exceeded" →
  issued env aws event w =
    [BatchGetBuilds [b]; GetItem (env_TABLE env) id;
     StartBuild name [("CACHE_BUSTER", Js.toString (Js.Int (now w)))];
     PutItem (env_TABLE env)
       (incidentItem id (Js.Int (n + 1)) "RETRY" "RETRYING" (now w))]
  ∧ now (snd (handler env aws event w)) = now w.
Proof.
  intros blob name id Hf Hm Hn Hmn Ha Ht%includes_false Hr%includes_toLowerCase_false.
  assert (classify (JSON_stringify (describedBuild aws b)) = "RETRY") as Hact.
  { rewrite classify_cases. fold blob. by rewrite Hr, Ht. }
  destruct (build_below_budget_run env aws event b w m n _ Hf Hm Hn Hmn Ha Hact)
    as [Hiss Hnow].
  rewrite Hiss, Hnow. cbn. by rewrite Z.add_0_r.
Qed.

(** The first failure of a build with an unremarkable log. *)
Lemma unmarked_build_is_retried_at_once_witness :
  now (snd (handler Scenario.env Scenario.healthy Scenario.build_b1
              Scenario.fresh)) = now Scenario.fresh.
Proof.
  refine (proj2
            (unmarked_build_is_retried_at_once Scenario.env Scenario.healthy
               Scenario.build_b1 (Some "b1") Scenario.fresh 2 0 _ _ _ _ _ _ _)).
  - vm_compute. reflexivity.
  - vm_compute. reflexivity.
  - vm_compute. reflexivity.
  - lia.
  - intros c. reflexivity.
  - apply includes_false. reflexivity.
  - apply includes_toLowerCase_false. reflexivity.
Defined.

Lemma plan_before_update env aws f w before name t after :
  plan env aws f w = before ++ UpdateProject name t :: after →
  Forall (λ c, is_retrigger c = false) before.
Proof.
  unfold plan, lookups, published, playbook.
  destruct f; (destruct (Js.ge _ _); [destruct (env_TOPIC_ARN env) as [[|c s]|]|]);
    repeat case_match; simpl; intros Hplan;
    repeat (destruct before as [|? before]; simplify_eq/=);
    repeat constructor.
Qed.

(** X14. When CodeBuild rejects the timeout bump, the build is not started
    again: the invocation ends with that rejection and no re-trigger has
    been issued. *)
Theorem rejected_timeout_bump_prevents_retrigger env aws event w name t :
  UpdateProject name t ∈ issued env aws event w →
  rejects aws (UpdateProject name t) = true →
  fst (handler env aws event w) = Throw (UpdateProject name t)
  ∧ Forall (λ c, is_retrigger c = false) (issued env aws event w).
Proof.
  intros Hin Hrej.
  destruct (recognise event) as [f|] eqn:Hf.
  2: { apply (handler_unrecognised env aws event w) in Hf as [_ Hiss].
       rewrite Hiss in Hin. by apply elem_of_nil in Hin. }
  destruct (handler_inv env aws event f w Hf)
    as [(before & c' & after & Hcs & Hb & Hc & Hrun & Hiss & Hput & Htab)
       |(Hall & Hrun & Hiss & _)].
  - rewrite Hiss in Hin. apply elem_of_app in Hin as [Hin|Hin].
    + rewrite Forall_forall in Hb. specialize (Hb _ Hin). simpl in Hb. congruence.
    + apply list_elem_of_singleton in Hin as <-.
      split; [by rewrite Hrun|].
      rewrite Hiss. apply Forall_app. split; [|by repeat constructor].
      by eapply plan_before_update.
  - rewrite Hiss in Hin. rewrite Forall_forall in Hall.
    specialize (Hall _ Hin). simpl in Hall. congruence.
Qed.

(** CodeBuild refuses to raise the timeout of project demo. *)
Lemma rejected_timeout_bump_prevents_retrigger_witness :
  Forall (λ c, is_retrigger c = false)
    (issued Scenario.env Cases.no_update Scenario.build_b1 Scenario.fresh).
Proof.
  refine (proj2
            (rejected_timeout_bump_prevents_retrigger Scenario.env Cases.no_update
               Scenario.build_b1 Scenario.fresh (Some "demo") 25 _ _)).
  - vm_compute. apply list_elem_of_In. simpl. tauto.
  - reflexivity.
Defined.






(** X16. When CodeBuild describes no build for the id (an empty or missing
    list), the project name is undefined and there is nothing to classify:
    the action is RETRY, so the handler goes straight to a [startBuild]
    without a project name.  That request lacks a required parameter and is
    refused; the invocation ends with that rejection, nothing is written
    and the retry count is as it was. *)
Theorem undescribed_build_cannot_be_retried env aws event b w (m n : Z) :
  let id := buildIncidentId b in
  let start := StartBuild None [("CACHE_BUSTER", Js.toString (Js.Int (now w)))] in
  recognise event = Some (BuildFailure b) →
  MAX_RETRIES env = Js.Int m →
  retryCount w id = Js.Int n →
  n < m →
  builds (describe aws [b]) = None ∨ builds (describe aws [b]) = Some [] →
  (∀ c, is_lookup c = true → rejects aws c = false) →
  (∀ overrides, rejects aws (StartBuild None overrides) = true) →
  issued env aws event w = [BatchGetBuilds [b]; GetItem (env_TABLE env) id; start]
  ∧ fst (handler env aws event w) = Throw start
  ∧ table (snd (handler env aws event w)) = table w
  ∧ retryCount (snd (handler env aws event w)) id = Js.Int n.
Proof.
  intros id start Hf Hm Hn Hmn Hnone Hlook Hstart.
  assert (describedBuild aws b = None) as Hb.
  { unfold describedBuild. by destruct Hnone as [-> | ->]. }
  assert (Js.ge (retryCount w (identity (BuildFailure b))) (MAX_RETRIES env)
          = false) as Hge.
  { cbn [identity]. fold id. rewrite Hm, Hn. simpl. by apply Z.leb_gt. }
  pose proof (plan_below_budget env aws _ w Hge) as Heq.
  unfold lookups, playbook, delay, project, chosenAction in Heq.
  cbn [identity] in Heq. rewrite Hb in Heq. cbn in Heq.
  rewrite Z.add_0_r in Heq. fold id in Heq. fold start in Heq.
  destruct (handler_stops env aws event _ w
              [BatchGetBuilds [b]; GetItem (env_TABLE env) id] start _ Hf Heq)
    as [Hrun Hiss].
  { repeat constructor; simpl; by apply Hlook. }
  { apply Hstart. }
  rewrite Hrun, Hiss. cbn [fst snd]. split_and!; [done|done|done|].
  by rewrite <- Hn.
Qed.

(** CodeBuild no longer knows build b1. *)
Lemma undescribed_build_cannot_be_retried_witness :
  fst (handler Scenario.env Cases.unknown_build Scenario.build_b1 Scenario.fresh)
  = Throw (StartBuild None
             [("CACHE_BUSTER", Js.toString (Js.Int (now Scenario.fresh)))]).
Proof.
  refine (proj1 (proj2
            (undescribed_build_cannot_be_retried Scenario.env
               Cases.unknown_build Scenario.build_b1 (Some "b1") Scenario.fresh
               2 0 _ _ _ _ _ _ _))).
  - vm_compute. reflexivity.
  - vm_compute. reflexivity.
  - vm_compute. reflexivity.
  - lia.
  - right. reflexivity.
  - intros c Hc. by destruct c.
  - intros overrides. reflexivity.
Defined.

(** ** The retry budget *)

(** X17. The budget is read from MAX_RETRIES in base ten; an unset or
    empty variable means a budget of two. *)
Theorem MAX_RETRIES_is_read_from_the_environment env :
  (env_MAX_RETRIES env = None ∨ env_MAX_RETRIES env = Some "" →
   MAX_RETRIES env = Js.Int 2)
  ∧ (∀ m : Z, env_MAX_RETRIES env = Some (Js.toString (Js.Int m)) →
              MAX_RETRIES env = Js.Int m).
Proof.
  unfold MAX_RETRIES. split.
  - by intros [-> | ->].
  - intros m ->. destruct (toString_cons (Js.Int m)) as (c & s & Hcs).
    unfold Js.or_else. rewrite Hcs, <- Hcs. apply parseInt_toString.
Qed.

(** A budget of five. *)
Lemma MAX_RETRIES_is_read_from_the_environment_witness :
  MAX_RETRIES Cases.env_five = Js.Int 5.
Proof.
  refine (proj2 (MAX_RETRIES_is_read_from_the_environment Cases.env_five) 5 _).
  reflexivity.
Defined.

Lemma ge_NaN r : Js.ge r Js.NaN = false.
Proof. by destruct r. Qed.

Lemma remediation_plan_stores_RETRYING env aws f w :
  Js.ge (retryCount w (identity f)) (MAX_RETRIES env) = false →
  Forall (λ c, is_publish c = false
               ∧ match c with
                 | PutItem _ item => item !! "status" = Some (AttrS "RETRYING")
                 | _ => True
                 end)
    (plan env aws f w).
Proof.
  intros Hge. rewrite plan_below_budget by done. rewrite !Forall_app. split_and!.
  - destruct f; repeat constructor.
  - destruct f; unfold playbook; repeat case_match; repeat constructor.
  - repeat constructor.
Qed.

(** X18. A budget that does not parse is never reached: the comparison
    with NaN fails for every count, so no invocation escalates; nothing is
    published and every record written has status RETRYING. *)
Theorem unparsable_budget_never_escalates env aws event w :
  MAX_RETRIES env = Js.NaN →
  Forall (λ c, is_publish c = false) (issued env aws event w)
  ∧ ∀ t item, PutItem t item ∈ issued env aws event w →
              item !! "status" = Some (AttrS "RETRYING").
Proof.
  intros Hnan.
  destruct (recognise event) as [f|] eqn:Hf.
  2: { destruct (handler_unrecognised env aws event w Hf) as [_ ->].
       split; [constructor|]. intros t item Hin. by apply elem_of_nil in Hin. }
  assert (Js.ge (retryCount w (identity f)) (MAX_RETRIES env) = false) as Hge
    by (rewrite Hnan; apply ge_NaN).
  pose proof (remediation_plan_stores_RETRYING env aws f w Hge) as Hplan.
  rewrite Forall_forall in Hplan. split.
  - apply Forall_forall. intros c Hin.
    by apply (issued_in_plan _ _ _ _ _ _ Hf), Hplan in Hin as [? _].
  - intros t item Hin.
    by apply (issued_in_plan _ _ _ _ _ _ Hf), Hplan in Hin as [_ ?].
Qed.

(** With MAX_RETRIES set to "two", even the hundredth failure of b1 is
    retried. *)
Lemma unparsable_budget_never_escalates_witness :
  Forall (λ c, is_publish c = false)
    (issued Cases.env_unparsable Scenario.healthy Scenario.build_b1
       (Scenario.retried "codebuild:b1" 99)).
Proof.
  refine (proj1 (unparsable_budget_never_escalates Cases.env_unparsable
                   Scenario.healthy Scenario.build_b1
                   (Scenario.retried "codebuild:b1" 99) _)).
  vm_compute. reflexivity.
Defined.

Lemma count_publish_playbook aws f t : count is_publish (playbook aws f t) = 0%nat.
Proof. destruct f; unfold playbook; by repeat case_match. Qed.

(** X19. The budget bounds the remediation of an incident.  With the
    services answering, [k] failures of an incident that stands at count
    [n] of a budget [m] start the work again min(k, m - n) times, and every
    failure beyond that is escalated instead; the count ends at
    min(n + k, m). *)
Theorem budget_bounds_remediation env id (m n : Z) arn ds w :
  MAX_RETRIES env = Js.Int m →
  env_TOPIC_ARN env = Some arn →
  arn ≠ "" →
  retryCount w id = Js.Int n →
  n ≤ m →
  Forall (λ d, answering d.1 ∧ ∃ f, recognise d.2 = Some f ∧ identity f = id) ds →
  let w' := process env ds w in
  let k := Z.of_nat (length ds) in
  retryCount w' id = Js.Int (Z.min (n + k) m)
  ∧ Z.of_nat (count is_retrigger (trace w'))
    = Z.of_nat (count is_retrigger (trace w)) + Z.min k (m - n)
  ∧ Z.of_nat (count is_publish (trace w'))
    = Z.of_nat (count is_publish (trace w)) + Z.max 0 (k - (m - n)).
Proof.
  intros Hm Harn Hne Hn Hnm Hds. revert w n Hn Hnm.
  induction Hds as [|[aws event] ds (Ha & f & Hf & Hid) _ IH];
    intros w n Hn Hnm w' k.
  { subst w' k. simpl. rewrite Z.add_0_r, Z.min_l by done.
    split_and!; [done|lia|lia]. }
  subst w' k. rewrite process_cons. simpl in Ha, Hf.
  set (w1 := deliver env w (aws, event)).
  rewrite <- Hid in Hn.
  destruct (decide (n < m)) as [Hlt|Hge].
  - destruct (below_budget_run env aws event f w m n Hf Hm Hn Hlt Ha)
      as (_ & Hiss & Htab).
    pose proof (issued_trace env aws event w) as Htrace. rewrite Hiss in Htrace.
    change (snd (handler env aws event w)) with w1 in Htrace, Htab.
    assert (retryCount w1 id = Js.Int (n + 1)) as Hn1.
    { rewrite <- Hid.
      rewrite (retryCount_table (store (identity f)
                 (incidentItem (identity f) (Js.Int (n + 1)) (chosenAction aws f)
                    "RETRYING" (now w + delay aws f)) w)) by exact Htab.
      apply retryCount_store. }
    destruct (IH w1 (n + 1) Hn1) as (Hcount & Hre & Hpub); [lia|].
    assert (count is_retrigger (trace w1) = S (count is_retrigger (trace w))) as H1.
    { rewrite Htrace, !count_app, count_retrigger_playbook,
        (count_none is_retrigger (lookups env f))
        by (destruct f; repeat constructor).
      unfold count. simpl. lia. }
    assert (count is_publish (trace w1) = count is_publish (trace w)) as H2.
    { rewrite Htrace, !count_app, count_publish_playbook,
        (count_none is_publish (lookups env f))
        by (destruct f; repeat constructor).
      unfold count. simpl. lia. }
    rewrite Hcount, Hre, Hpub, H1, H2. cbn [length].
    split_and!; [f_equal; lia|lia|lia].
  - assert (n = m) as -> by lia.
    destruct (over_budget_run env aws event f w m m Hf Hm Hn (Z.le_refl m) Ha)
      as (_ & Htrace & Htab).
    change (snd (handler env aws event w)) with w1 in Htrace, Htab.
    assert (retryCount w1 id = Js.Int m) as Hn1.
    { rewrite <- Hid.
      rewrite (retryCount_table (store (identity f)
                 (incidentItem (identity f) (Js.Int m) "GAVE_UP" "UNHEALED" (now w))
                 w)) by exact Htab.
      apply retryCount_store. }
    destruct (IH w1 m Hn1) as (Hcount & Hre & Hpub); [lia|].
    assert (published env (message aws f (Js.Int m))
            = [Publish arn (message aws f (Js.Int m))]) as Hp.
    { unfold published. rewrite Harn. by destruct arn. }
    rewrite Hp in Htrace.
    assert (count is_retrigger (trace w1) = count is_retrigger (trace w)) as H1.
    { rewrite Htrace, !count_app, (count_none is_retrigger (lookups env f))
        by (destruct f; repeat constructor).
      unfold count. simpl. lia. }
    assert (count is_publish (trace w1) = S (count is_publish (trace w))) as H2.
    { rewrite Htrace, !count_app, (count_none is_publish (lookups env f))
        by (destruct f; repeat constructor).
      unfold count. simpl. lia. }
    rewrite Hcount, Hre, Hpub, H1, H2. cbn [length].
    split_and!; [f_equal; lia|lia|lia].
Qed.

(** Five failures of build b1 with a budget of two: two retries, three
    escalations. *)
Lemma budget_bounds_remediation_witness :
  Z.of_nat
    (count is_retrigger
       (trace (process Scenario.env
                 (replicate 5 (Scenario.healthy, Scenario.build_b1))
                 Scenario.fresh)))
  = Z.of_nat (count is_retrigger (trace Scenario.fresh))
    + Z.min (Z.of_nat (length (replicate 5 (Scenario.healthy, Scenario.build_b1))))
        (2 - 0).
Proof.
  refine (proj1 (proj2
            (budget_bounds_remediation Scenario.env "codebuild:b1" 2 0
               "arn:aws:sns:eu-west-1:123456789012:SelfHealingAlerts"
               (replicate 5 (Scenario.healthy, Scenario.build_b1))
               Scenario.fresh _ _ _ _ _ _))).
  - vm_compute. reflexivity.
  - reflexivity.
  - discriminate.
  - vm_compute. reflexivity.
  - lia.
  - repeat constructor; try (intros c; reflexivity);
      exists Scenario.b1; split; vm_compute; reflexivity.
Defined.

(** ** What an invocation never does *)

Lemma issued_prefix env aws event f w :
  recognise event = Some f →
  ∃ rest, plan env aws f w = issued env aws event w ++ rest.
Proof.
  intros Hf.
  destruct (handler_inv env aws event f w Hf)
    as [(before & c & after & Hcs & _ & _ & _ & -> & _)
       |(_ & _ & -> & _)].
  - exists after. by rewrite Hcs, <- app_assoc.
  - exists []. by rewrite app_nil_r.
Qed.

Lemma count_prefix kind (cs rest : list Call) :
  (count kind cs ≤ count kind (cs ++ rest))%nat.
Proof. rewrite count_app. lia. Qed.

Lemma count_published kind env message :
  (count kind (published env message) ≤ 1)%nat.
Proof.
  unfold published, count.
  destruct (env_TOPIC_ARN env) as [[|c s]|]; simpl; try lia. case_match; simpl; lia.
Qed.

Lemma count_singleton kind (c : Call) :
  count kind [c] = if kind c then 1%nat else 0%nat.
Proof. unfold count. simpl. by destruct (kind c). Qed.

Lemma plan_counts env aws f w :
  (count is_retrigger (plan env aws f w) + count is_publish (plan env aws f w) ≤ 1
   ∧ count is_putItem (plan env aws f w) = 1)%nat.
Proof.
  unfold plan. rewrite !count_app.
  rewrite (count_none is_retrigger (lookups env f)),
    (count_none is_publish (lookups env f)),
    (count_none is_putItem (lookups env f)) by (destruct f; repeat constructor).
  destruct (Js.ge _ _); rewrite !count_app.
  - pose proof (count_published is_publish env
                  (message aws f (retryCount w (identity f)))).
    rewrite (count_none is_retrigger (published _ _)),
      (count_none is_putItem (published _ _));
      [|apply published_spec
       |unfold published; destruct (env_TOPIC_ARN env) as [[|c s]|];
        repeat constructor].
    rewrite !count_singleton. simpl. lia.
  - rewrite count_retrigger_playbook, count_publish_playbook,
      (count_none is_putItem (playbook _ _ _)) by apply playbook_not_put.
    rewrite !count_singleton. simpl. lia.
Qed.

(** X20. An invocation either remediates or escalates, never both, and
    does either at most once: among the requests it issues there is at most
    one re-trigger or notification in all, and at most one write. *)
Theorem one_action_per_invocation env aws event w :
  (count is_retrigger (issued env aws event w)
   + count is_publish (issued env aws event w) ≤ 1)%nat
  ∧ (count is_putItem (issued env aws event w) ≤ 1)%nat.
Proof.
  destruct (recognise event) as [f|] eqn:Hf.
  2: { destruct (handler_unrecognised env aws event w Hf) as [_ ->].
       unfold count. simpl. lia. }
  destruct (issued_prefix env aws event f w Hf) as [rest Hrest].
  pose proof (plan_counts env aws f w) as [H1 H2]. rewrite Hrest in H1, H2.
  pose proof (count_prefix is_retrigger (issued env aws event w) rest).
  pose proof (count_prefix is_publish (issued env aws event w) rest).
  pose proof (count_prefix is_putItem (issued env aws event w) rest).
  lia.
Qed.

Lemma stage_plan_calls env aws p s e w :
  Forall (λ c, is_codebuild c = false ∧ is_timer c = false)
    (plan env aws (StageFailure p s e) w).
Proof.
  unfold plan. rewrite Forall_app. split; [repeat constructor|].
  destruct (Js.ge _ _); rewrite Forall_app; split; try (repeat constructor).
  unfold published. destruct (env_TOPIC_ARN env) as [[|c t]|]; repeat constructor.
Qed.

Lemma waited_no_timer cs :
  Forall (λ c, is_timer c = false) cs → waited cs = 0.
Proof.
  induction 1 as [|c cs Hc _ IH]; [done|]. simpl. by destruct c.
Qed.

(** X21. A failed pipeline action is handled without CodeBuild and without
    waiting: the invocation issues no CodeBuild request and sets no timer,
    and the clock stands where it stood. *)
Theorem stage_failure_needs_no_CodeBuild env aws event p s e w :
  recognise event = Some (StageFailure p s e) →
  Forall (λ c, is_codebuild c = false ∧ is_timer c = false)
    (issued env aws event w)
  ∧ now (snd (handler env aws event w)) = now w.
Proof.
  intros Hf.
  pose proof (stage_plan_calls env aws p s e w) as Hplan.
  destruct (handler_inv env aws event _ w Hf)
    as [(before & c & after & Hcs & _ & _ & -> & -> & _)
       |(_ & -> & -> & _)].
  - rewrite Hcs in Hplan. split; [by eapply Forall_stopped|].
    simpl. rewrite now_fulfil, waited_no_timer; [lia|].
    apply Forall_app in Hplan as [Hb _].
    eapply Forall_impl; [exact Hb|]. by intros ? [_ ?].
  - split; [done|]. cbn [snd]. rewrite now_fulfil, waited_no_timer; [lia|].
    eapply Forall_impl; [exact Hplan|]. by intros ? [_ ?].
Qed.

(** The failed stage Build of pipeline p1. *)
Lemma stage_failure_needs_no_CodeBuild_witness :
  now (snd (handler Scenario.env Scenario.healthy (Scenario.stage_event "p1")
              Scenario.fresh)) = now Scenario.fresh.
Proof.
  refine (proj2
            (stage_failure_needs_no_CodeBuild Scenario.env Scenario.healthy
               (Scenario.stage_event "p1") (Some "p1") (Some "Build") (Some "e1")
               Scenario.fresh _)).
  vm_compute. reflexivity.
Defined.

(** [parseInt] skips the white space of Unicode, not only of ASCII: here
    U+00A0, and then a space followed by U+FEFF, U+2003 and U+3000. *)
Example parseInt_no_break_space : Js.parseInt " 5" = Js.Int 5.
Proof. reflexivity. Qed.

Example parseInt_mixed_white_space : Js.parseInt " ﻿ 　-42" = Js.Int (-42).
Proof. reflexivity. Qed.

Example parseInt_letters : Js.parseInt "two" = Js.NaN.
Proof. reflexivity. Qed.
